(** * loc_counter.py: the repository line counter, embedded and verified

    The scanner of [loc_counter.py] walks a directory tree with
    [pathlib], filters the files it finds, counts their non-blank lines
    and renders a report.  This development embeds the four functions
    [count_lines], [get_total_files], [analyze_repo] and
    [format_results] together with the parts of the Python runtime they
    call ([str.strip], [defaultdict(int)], [sorted], the format
    mini-language, integer true division) and of [pathlib]
    ([Path.glob], [PurePath.match], [str(path)]).

    Conventions.
    - Python [int] is [Z].
    - A decoded line of text is a list of Unicode code points ([N]).
    - File names, patterns, dictionary keys and messages are [string]s,
      one [ascii] per character of the Python [str]: the characters
      are those below U+0100, and a name with any other character is
      outside the model.
    - A dictionary is an association list in insertion order (the order
      that [sorted], being stable, lets show through in the report).
    - A Python exception is a value of [exn]; code that may raise
      returns a [result].
    - Standard output is a [Console]: the characters its encoding has.
      The [print] of [count_lines] and of the entry point go through
      it and raise [UnicodeEncodeError] for a text it cannot encode.
    - The banners of [analyze_repo] (date, configuration, number of
      files found, duration) are not part of the model; its progress
      bar is, in [analyze_repo_logged].
    - The runtime is CPython 3.11 on POSIX.  Its limit on the length of
      an [int] turned into text (4300 digits unless lifted) is stated
      apart, as [within_str_digits], and assumed where a theorem
      promises such a text for numbers of any size. *)

From Stdlib Require Import ZArith List Bool Ascii String Lia.
From Stdlib Require Import DecimalString Permutation Sorted.
From Stdlib Require Import Floats.SpecFloat.
Import ListNotations.

Local Open Scope string_scope.
Local Open Scope Z_scope.

(* ================================================================== *)
(** * Exceptions and the result monad *)

(** The exceptions that the modelled code can meet.  All of them are
    subclasses of Python's [Exception]; [UnicodeDecodeError] is the one
    [count_lines] singles out, [UnicodeEncodeError] the one a [print]
    raises. *)
Inductive exn : Type :=
  | UnicodeDecodeError (msg : string)
  | UnicodeEncodeError (msg : string)
  | OSError (msg : string)
  | ValueError (msg : string)
  | KeyError (key : string)
  | ZeroDivisionError (msg : string)
  | OverflowError (msg : string).

Inductive result (A : Type) : Type :=
  | Ok (a : A)
  | Raise (e : exn).
Arguments Ok {A} a.
Arguments Raise {A} e.

Definition bind {A B : Type} (m : result A) (k : A -> result B) : result B :=
  match m with
  | Ok a => k a
  | Raise e => Raise e
  end.

Declare Scope py_scope.
Delimit Scope py_scope with py.
Notation "x <- m ;; k" := (bind m (fun x => k))
  (at level 61, m at next level, right associativity) : py_scope.
Notation "' pat <- m ;; k" := (bind m (fun x => match x with pat => k end))
  (at level 61, pat pattern, m at next level, right associativity) : py_scope.
Local Open Scope py_scope.

(** [repr(s)] for a [str]: single quotes, unless the text has a
    single quote and no double quote; the quote in use and the
    backslash are escaped, tab, newline and carriage return are written
    [\t], [\n], [\r], and the other characters that are not printable
    as [\xNN]. *)
Definition backslash : ascii := ascii_of_nat 92.
Definition dquote : ascii := ascii_of_nat 34.
Definition squote : ascii := "'"%char.

Definition hex_digit (n : N) : ascii :=
  ascii_of_N (if n <? 10 then 48 + n else 87 + n)%N.

(** [str.isprintable] on one character below U+0100. *)
Definition printable (c : ascii) : bool :=
  let n := N_of_ascii c in
  ((32 <=? n) && (n <? 127) || (161 <=? n) && negb (n =? 173))%N.

(** The escape [\xNN] of a character. *)
Definition escape_x (c : ascii) : string :=
  String backslash
    (String "x"%char
       (String (hex_digit (N_of_ascii c / 16))
          (String (hex_digit (N_of_ascii c mod 16)) EmptyString))).

Definition repr_char (quote c : ascii) : string :=
  if Ascii.eqb c quote || Ascii.eqb c backslash
  then String backslash (String c EmptyString)
  else if Ascii.eqb c (ascii_of_nat 9) then String backslash "t"
  else if Ascii.eqb c (ascii_of_nat 10) then String backslash "n"
  else if Ascii.eqb c (ascii_of_nat 13) then String backslash "r"
  else if printable c then String c EmptyString
  else escape_x c.

Definition py_repr (s : string) : string :=
  let cs := list_ascii_of_string s in
  let quote :=
    if existsb (Ascii.eqb squote) cs && negb (existsb (Ascii.eqb dquote) cs)
    then dquote else squote in
  String quote (String.concat "" (map (repr_char quote) cs) ++ String quote EmptyString).

(** [str(e)]: the text an exception prints as. *)
Definition exn_str (e : exn) : string :=
  match e with
  | UnicodeDecodeError m => m
  | UnicodeEncodeError m => m
  | OSError m => m
  | ValueError m => m
  | KeyError k => py_repr k
  | ZeroDivisionError m => m
  | OverflowError m => m
  end.

Definition is_UnicodeDecodeError (e : exn) : bool :=
  match e with UnicodeDecodeError _ => true | _ => false end.

(* ================================================================== *)
(** * Standard output *)

(** What the program can observe of [sys.stdout]: which characters the
    encoding of the stream has, and the message of the error it raises
    for a text it cannot encode.  The ASCII characters are taken to be
    in the encoding, as they are in UTF-8, in Latin-1 and in the other
    encodings in use for a terminal; [encodes] speaks for the
    characters above them.  A stream whose error handler replaces what
    it cannot encode is a console that has every character. *)
Record Console : Type := mkConsole {
  encodes : ascii -> bool;
  codec_error : string -> string
}.

Definition is_ascii (c : ascii) : bool := (N_of_ascii c <? 128)%N.

Definition can_encode (out : Console) (s : string) : bool :=
  forallb (fun c => is_ascii c || encodes out c) (list_ascii_of_string s).

(** [print(s)]: the text is encoded whole before anything is written,
    so a text that cannot be encoded leaves no trace. *)
Definition print (out : Console) (s : string) : result (list string) :=
  if can_encode out s then Ok [s]
  else Raise (UnicodeEncodeError (codec_error out s)).

(* ================================================================== *)
(** * Text: code points, whitespace, [str.strip] *)

Definition codepoint := N.
Definition line := list codepoint.

(** [str.isspace] on one character, as CPython's
    [_PyUnicode_IsWhitespace] has it. *)
Definition isspace (c : codepoint) : bool :=
  let c := Z.of_N c in
  ((9 <=? c) && (c <=? 13))
  || ((28 <=? c) && (c <=? 32))
  || (c =? 133) || (c =? 160) || (c =? 5760)
  || ((8192 <=? c) && (c <=? 8202))
  || (c =? 8232) || (c =? 8233) || (c =? 8239) || (c =? 8287)
  || (c =? 12288).

Fixpoint lstrip (l : line) : line :=
  match l with
  | [] => []
  | c :: r => if isspace c then lstrip r else l
  end.

Definition rstrip (l : line) : line := rev (lstrip (rev l)).

(** [line.strip()] *)
Definition strip (l : line) : line := rstrip (lstrip l).

(** Truth value of a string: non-empty. *)
Definition truthy (l : line) : bool :=
  match l with [] => false | _ :: _ => true end.

(** A literal written as a [string] read as code points. *)
Fixpoint text (s : string) : line :=
  match s with
  | EmptyString => []
  | String a r => N_of_ascii a :: text r
  end.

(** A line as the file iterator yields it, with its newline. *)
Definition ln (s : string) : line := (text s ++ [10%N])%list.

(* ================================================================== *)
(** * Files as [open(..., 'r', encoding='utf-8')] sees them *)

(** What iterating over the opened file gives: the lines it yields, and
    then either the end of the file or an exception.  An [open] that
    fails outright yields no line. *)
Record TextFile : Type := mkTextFile {
  yields : list line;
  failure : option exn
}.

(** [sum(1 for line in f if line.strip())]: the generator is consumed
    line by line, the running sum is lost if the iteration raises. *)
Fixpoint sum_gen (acc : Z) (ls : list line) (stop : option exn) : result Z :=
  match ls with
  | [] => match stop with
          | None => Ok acc
          | Some e => Raise e
          end
  | l :: r => sum_gen (if truthy (strip l) then acc + 1 else acc) r stop
  end.

(* ================================================================== *)
(** * Strings *)

Definition chars := list ascii.

Definition slash : ascii := "/"%char.

(** [needle in hay] for two [str]: the empty needle occurs everywhere. *)
Fixpoint is_prefix (a b : chars) : bool :=
  match a, b with
  | [], _ => true
  | _ :: _, [] => false
  | x :: a', y :: b' => Ascii.eqb x y && is_prefix a' b'
  end.

Fixpoint occurs_in (needle hay : chars) : bool :=
  is_prefix needle hay ||
  match hay with
  | [] => false
  | _ :: hay' => occurs_in needle hay'
  end.

Definition str_contains (needle hay : string) : bool :=
  occurs_in (list_ascii_of_string needle) (list_ascii_of_string hay).

(** [s.split(sep)] for a one-character separator; [cur] holds, reversed,
    the characters of the piece being read. *)
Fixpoint split_on (sep : ascii) (cur : chars) (s : chars) : list string :=
  match s with
  | [] => [string_of_list_ascii (rev cur)]
  | c :: r =>
      if Ascii.eqb c sep
      then string_of_list_ascii (rev cur) :: split_on sep [] r
      else split_on sep (c :: cur) r
  end.

Definition split (sep : ascii) (s : string) : list string :=
  split_on sep [] (list_ascii_of_string s).

(* ================================================================== *)
(** * [fnmatch.fnmatchcase] *)

(** A pattern is read into tokens: [*], [?], a literal character, or a
    bracket expression with its items (single characters are ranges
    from a character to itself). *)
Inductive tok : Type :=
  | TStar
  | TAny
  | TLit (c : ascii)
  | TSet (negated : bool) (items : list (ascii * ascii)).

(** The body of a bracket expression, read left to right: [a-b] is a
    range when the hyphen has a character on both sides, any other
    character stands for itself. *)
Fixpoint set_items (body : chars) : list (ascii * ascii) :=
  match body with
  | [] => []
  | lo :: r =>
      match r with
      | h :: hi :: r' =>
          if Ascii.eqb h "-"%char
          then (lo, hi) :: set_items r'
          else (lo, lo) :: set_items r
      | _ => (lo, lo) :: set_items r
      end
  end.

(** Everything up to the first [']'], and what follows it. *)
Fixpoint until_close (s : chars) : option (chars * chars) :=
  match s with
  | [] => None
  | c :: r =>
      if Ascii.eqb c "]"%char then Some ([], r)
      else match until_close r with
           | Some (body, rest) => Some (c :: body, rest)
           | None => None
           end
  end.

(** What follows a ['['], as [fnmatch.translate] scans it: an optional
    ['!'], an optional [']'] that stands for itself, then the body up
    to the closing bracket.  [None] when the bracket is never closed. *)
Definition bracket (s : chars) : option (bool * chars * chars) :=
  let '(neg, s1) :=
    match s with
    | c :: r => if Ascii.eqb c "!"%char then (true, r) else (false, s)
    | [] => (false, s)
    end in
  match s1 with
  | c :: r =>
      if Ascii.eqb c "]"%char
      then match until_close r with
           | Some (body, rest) => Some (neg, c :: body, rest)
           | None => None
           end
      else match until_close s1 with
           | Some (body, rest) => Some (neg, body, rest)
           | None => None
           end
  | [] => None
  end.

Fixpoint tokens (fuel : nat) (s : chars) : list tok :=
  match fuel with
  | O => []
  | S fuel' =>
      match s with
      | [] => []
      | c :: r =>
          if Ascii.eqb c "*"%char then TStar :: tokens fuel' r
          else if Ascii.eqb c "?"%char then TAny :: tokens fuel' r
          else if Ascii.eqb c "["%char then
            match bracket r with
            | Some (neg, body, rest) => TSet neg (set_items body) :: tokens fuel' rest
            | None => TLit c :: tokens fuel' r
            end
          else TLit c :: tokens fuel' r
      end
  end.

Definition in_range (c : ascii) (item : ascii * ascii) : bool :=
  (N_of_ascii (fst item) <=? N_of_ascii c)%N && (N_of_ascii c <=? N_of_ascii (snd item))%N.

Fixpoint match_tokens (ts : list tok) (s : chars) {struct ts} : bool :=
  match ts with
  | [] => match s with [] => true | _ :: _ => false end
  | TStar :: ts' =>
      (fix star (s : chars) : bool :=
         match_tokens ts' s ||
         match s with
         | [] => false
         | _ :: s' => star s'
         end) s
  | TAny :: ts' =>
      match s with
      | [] => false
      | _ :: s' => match_tokens ts' s'
      end
  | TLit c :: ts' =>
      match s with
      | [] => false
      | c' :: s' => Ascii.eqb c c' && match_tokens ts' s'
      end
  | TSet neg items :: ts' =>
      match s with
      | [] => false
      | c' :: s' => xorb neg (existsb (in_range c') items) && match_tokens ts' s'
      end
  end.

(** [fnmatch.fnmatchcase(name, pat)] *)
Definition fnmatchcase (name pat : string) : bool :=
  let p := list_ascii_of_string pat in
  match_tokens (tokens (List.length p) p) (list_ascii_of_string name).

(* ================================================================== *)
(** * [pathlib]: pure paths *)

(** A POSIX path: whether it is anchored at the root [/], and its name
    components.  [Path(root_dir)] is taken in this parsed form. *)
Record Path : Type := mkPath {
  absolute : bool;
  parts : list string
}.

(** [str(path)] *)
Definition path_str (p : Path) : string :=
  match parts p with
  | [] => if absolute p then "/" else "."
  | _ :: _ => (if absolute p then "/" else "") ++ String.concat "/" (parts p)
  end.

(** [path / rel], for a relative [rel] given by its components. *)
Definition joinpath (p : Path) (rel : list string) : Path :=
  mkPath (absolute p) (parts p ++ rel).

(** [path.name]: the last component, empty for a path without one. *)
Definition path_name (p : Path) : string := last (parts p) "".

(** The components pathlib keeps of a pattern or path string: the
    pieces between slashes, the empty ones and ["."] dropped. *)
Definition keeps (c : string) : bool :=
  negb (String.eqb c "" || String.eqb c ".").

Definition parse_parts (s : string) : bool * list string :=
  (match s with String c _ => Ascii.eqb c slash | EmptyString => false end,
   filter keeps (split slash s)).

(** POSIX keeps a root of exactly two slashes apart from [/]. *)
Definition double_slash (s : string) : bool :=
  match s with
  | String a (String b rest) =>
      Ascii.eqb a slash && Ascii.eqb b slash
      && negb (match rest with String c _ => Ascii.eqb c slash | EmptyString => false end)
  | _ => false
  end.

(** The parts pathlib compares ([_cparts]): the root counts as a part. *)
Definition cparts (is_abs : bool) (names : list string) : list string :=
  (if is_abs then ["/"] else []) ++ names.

(** [for part, pat in zip(reversed(parts), reversed(pat_parts))]: the
    shorter list ends the comparison. *)
Fixpoint zip_fnmatch (ps pats : list string) : bool :=
  match ps, pats with
  | p :: ps', pat :: pats' => fnmatchcase p pat && zip_fnmatch ps' pats'
  | _, _ => true
  end.

(** [PurePath.match(pattern)] as CPython 3.4 to 3.11 implement it for
    POSIX paths: a relative pattern is compared with the path from the
    right, component by component; an absolute pattern must have the
    root of the path and cover the whole path; a pattern without any
    component raises [ValueError]. *)
Definition path_match (p : Path) (pattern : string) : result bool :=
  let '(pat_abs, pat_names) := parse_parts pattern in
  let pat_parts := cparts pat_abs pat_names in
  match pat_parts with
  | [] => Raise (ValueError "empty pattern")
  | _ :: _ =>
      if pat_abs && (negb (absolute p) || double_slash pattern) then Ok false
      else
        let ps := cparts (absolute p) (parts p) in
        if pat_abs then
          if negb (Nat.eqb (List.length pat_parts) (List.length ps)) then Ok false
          else Ok (zip_fnmatch (rev ps) (rev (tl pat_parts)))
        else if Nat.ltb (List.length ps) (List.length pat_parts) then Ok false
        else Ok (zip_fnmatch (rev ps) (rev pat_parts))
  end.

(* ================================================================== *)
(** * The directory tree under the root *)

(** The tree below the scanned root, flattened in traversal order:
    every entry (file or directory) with its components relative to the
    root and with what opening and reading it as UTF-8 text gives.  A
    directory is an entry whose [open] fails with [OSError]. *)
Definition Entry : Type := list string * TextFile.
Definition FileSystem : Type := list Entry.

Definition rel_eqb (a b : list string) : bool :=
  if list_eq_dec String.string_dec a b then true else false.

(** Does an entry match the components that follow the leading [**] of
    a recursive pattern?  Any number of directories may precede them. *)
Definition matches_tail (tail rel : list string) : bool :=
  Nat.leb (List.length tail) (List.length rel)
  && negb (Nat.eqb (List.length rel) 0)
  && zip_fnmatch (rev rel) (rev tail).

(** A pattern without [**]: the components are compared one to one. *)
Definition matches_exact (pats rel : list string) : bool :=
  Nat.eqb (List.length pats) (List.length rel)
  && negb (Nat.eqb (List.length rel) 0)
  && zip_fnmatch (rev rel) (rev pats).

(** [_make_selector(pattern_parts)]: the selector of a pattern, as the
    test it makes on the components of an entry.  A component that
    contains [**] without being [**] is refused.  The patterns of this
    program are [**/*ext]; for an [ext] without a slash the selector
    takes every entry, at any depth, whose name matches [*ext], and for
    an [ext] with slashes the last components of the entry are matched
    one by one.  Patterns that select directories as such (a component
    [..], a second [**], a trailing slash) are outside what is
    modelled. *)
Definition selector (pattern_parts : list string) : list string -> bool :=
  match pattern_parts with
  | first :: tail =>
      if String.eqb first "**" then matches_tail tail
      else matches_exact pattern_parts
  | [] => fun _ => false
  end.

Definition _make_selector (pattern_parts : list string)
  : result (list string -> bool) :=
  if existsb (fun pat => negb (String.eqb pat "**") && str_contains "**" pat)
             pattern_parts
  then Raise (ValueError "Invalid pattern: '**' can only be an entire path component")
  else Ok (selector pattern_parts).

(** [root_path.glob(pattern)], consumed to its end: the paths below the
    root that the pattern selects, in traversal order, or the
    [ValueError] of the selector, which is raised before the first path
    is yielded. *)
Definition glob (root : Path) (fs : FileSystem) (pattern : string)
  : result (list Path) :=
  selects <- _make_selector (snd (parse_parts pattern)) ;;
  Ok (map (fun e => joinpath root (fst e)) (filter (fun e => selects (fst e)) fs)).

(** The components of [p] below [root], when [p] lies below it. *)
Fixpoint strip_root (root_parts ps : list string) : option (list string) :=
  match root_parts, ps with
  | [], _ => Some ps
  | r :: rs, c :: cs => if String.eqb r c then strip_root rs cs else None
  | _ :: _, [] => None
  end.

Fixpoint lookup_entry (rel : list string) (fs : FileSystem) : option TextFile :=
  match fs with
  | [] => None
  | (r, f) :: fs' => if rel_eqb r rel then Some f else lookup_entry rel fs'
  end.

(** What [open] raises for a path that names nothing:
    [FileNotFoundError], an [OSError], whose text ends with the path
    as [repr] writes it. *)
Definition missing (p : Path) : TextFile :=
  mkTextFile []
    (Some (OSError ("[Errno 2] No such file or directory: " ++ py_repr (path_str p)))).

(** [open(file_path, 'r', encoding='utf-8')] followed by reading: the
    entry found at the path, or [FileNotFoundError].  Nothing exists
    but the tree below the root; what [open] says of a path below an
    entry that is a regular file ([NotADirectoryError]) is not
    modelled. *)
Definition open_text (root : Path) (fs : FileSystem) (p : Path) : TextFile :=
  if Bool.eqb (absolute p) (absolute root) then
    match strip_root (parts root) (parts p) with
    | Some rel =>
        match lookup_entry rel fs with
        | Some f => f
        | None => missing p
        end
    | None => missing p
    end
  else missing p.

(* ================================================================== *)
(** * Dictionaries *)

(** [dict] and [defaultdict(int)] with string keys and integer values:
    the items in insertion order, and whether a missing key reads as
    [int()], that is 0, or raises [KeyError]. *)
Inductive dict_kind : Type := PlainDict | DefaultDictInt.

Definition items_t : Type := list (string * Z).

Record PyDict : Type := mkDict {
  kind : dict_kind;
  items : items_t
}.

Fixpoint find_item (k : string) (d : items_t) : option Z :=
  match d with
  | [] => None
  | (k', v) :: d' => if String.eqb k' k then Some v else find_item k d'
  end.

(** [d[k]].  A [defaultdict] also stores the 0 it hands out for a
    missing key; in [format_results], the one place that may read a
    missing key, the stored item changes neither a later lookup nor
    the totals, which are computed before the loop. *)
Definition getitem (d : PyDict) (k : string) : result Z :=
  match find_item k (items d) with
  | Some v => Ok v
  | None =>
      match kind d with
      | DefaultDictInt => Ok 0
      | PlainDict => Raise (KeyError k)
      end
  end.

(** [d[k] += v] on a [defaultdict(int)]: a key already present keeps
    its place, a new key is appended with [0 + v]. *)
Fixpoint iadd (d : items_t) (k : string) (v : Z) : items_t :=
  match d with
  | [] => [(k, 0 + v)]
  | (k', v') :: d' =>
      if String.eqb k' k then (k', v' + v) :: d' else (k', v') :: iadd d' k v
  end.

(** [sum(d.values())] *)
Definition sum_values (d : items_t) : Z :=
  fold_left (fun acc kv => acc + snd kv) d 0.

(** What a key reads as in a [defaultdict(int)]. *)
Definition count_of (d : items_t) (k : string) : Z :=
  match find_item k d with Some v => v | None => 0 end.

(* ================================================================== *)
(** * loc_counter.py *)

Definition nl : string := String (ascii_of_nat 10) EmptyString.

(** [count_lines(file_path)]: the value returned (or the exception
    that escapes) and the lines printed.  The [try] body is [sum_gen]
    over the opened file; the two handlers follow.  The [print] of the
    second handler stands outside every [try]: what it raises
    escapes. *)
Definition count_lines (out : Console) (root : Path) (fs : FileSystem)
  (file_path : Path) : result Z * list string :=
  let f := open_text root fs file_path in
  match sum_gen 0 (yields f) (failure f) with
  | Ok n => (Ok n, [])
  | Raise (UnicodeDecodeError _) => (Ok 0, [])
  | Raise e =>
      match print out (nl ++ "Error reading " ++ path_str file_path ++ ": "
                          ++ exn_str e) with
      | Ok written => (Ok 0, written)
      | Raise e' => (Raise e', [])
      end
  end.

(** The glob pattern of an extension entry: [f"**/*{ext}"]. *)
Definition pattern_of (ext : string) : string := "**/*" ++ ext.

(** A [for] loop whose body may raise. *)
Fixpoint for_each {A S : Type} (body : S -> A -> result S) (s : S) (l : list A)
  : result S :=
  match l with
  | [] => Ok s
  | a :: l' => s' <- body s a ;; for_each body s' l'
  end.

(** [get_total_files(root_dir, include_extensions)] *)
Definition get_total_files (root : Path) (fs : FileSystem)
  (include_extensions : list string) : result Z :=
  for_each
    (fun total ext =>
       paths <- glob root fs (pattern_of ext) ;;
       Ok (total + Z.of_nat (List.length paths)))
    0 include_extensions.

Definition default_exclude_dirs : list string :=
  ["node_modules"; "dist"; "build"; "venv"; ".git"; "__pycache__"; "generated"].

Definition default_exclude_files : list string :=
  ["*.min.js"; "*.min.css"; "*.map"; "*.pyc"; "*.g.dart"].

Definition default_include_extensions : list string :=
  ["dart"; ".py"; ".js"; ".jsx"; ".ts"; ".tsx"; ".java"; ".cpp"; ".h"; ".css"; ".scss"].

Definition or_default {A : Type} (o : option A) (d : A) : A :=
  match o with Some a => a | None => d end.

(** [any(exclude in str(file_path) for exclude in exclude_dirs)] *)
Definition in_excluded_dir (exclude_dirs : list string) (file_path : Path) : bool :=
  existsb (fun exclude => str_contains exclude (path_str file_path)) exclude_dirs.

(** [any(file_path.match(pattern) for pattern in exclude_files)]: the
    patterns are tried in order, the first match ends the search, and a
    pattern that [match] rejects raises. *)
Fixpoint any_match (file_path : Path) (exclude_files : list string) : result bool :=
  match exclude_files with
  | [] => Ok false
  | pattern :: rest =>
      b <- path_match file_path pattern ;;
      if b then Ok true else any_match file_path rest
  end.

(** The two counters of [analyze_repo]: [stats] and [file_counts]. *)
Definition counters : Type := (items_t * items_t)%type.

(** The body of the inner loop, for one path yielded by the glob of
    [ext]. *)
Definition visit (out : Console) (root : Path) (fs : FileSystem)
  (exclude_dirs exclude_files : list string) (ext : string)
  (c : counters) (file_path : Path) : result counters :=
  if in_excluded_dir exclude_dirs file_path then Ok c
  else
    skip <- any_match file_path exclude_files ;;
    if skip then Ok c
    else
      lines <- fst (count_lines out root fs file_path) ;;
      Ok (iadd (fst c) ext lines, iadd (snd c) ext 1).

(** [analyze_repo(root_dir, exclude_dirs, exclude_files,
    include_extensions)]; [None] selects the defaults.  The [verbose]
    flag only prints and is left out; [total_files] goes to the
    progress bar and nowhere else, but computing it runs every glob
    once before the loops do. *)
Definition analyze_repo (out : Console) (root : Path) (fs : FileSystem)
  (exclude_dirs exclude_files include_extensions : option (list string))
  : result (PyDict * PyDict) :=
  let exclude_dirs := or_default exclude_dirs default_exclude_dirs in
  let exclude_files := or_default exclude_files default_exclude_files in
  let include_extensions := or_default include_extensions default_include_extensions in
  total_files <- get_total_files root fs include_extensions ;;
  c <- for_each
         (fun c ext =>
            paths <- glob root fs (pattern_of ext) ;;
            for_each (visit out root fs exclude_dirs exclude_files ext) c paths)
         ([], []) include_extensions ;;
  Ok (mkDict DefaultDictInt (fst c), mkDict DefaultDictInt (snd c)).

(* ================================================================== *)
(** * Numbers as text: the format mini-language *)

(** The decimal digits of a natural number. *)
Definition digits (n : N) : string := NilZero.string_of_uint (N.to_uint n).

(** CPython 3.11 turns an [int] into decimal text only when it has at
    most 4300 digits ([sys.get_int_max_str_digits()], unless lifted
    with [PYTHONINTMAXSTRDIGITS=0]); for a longer one [str], [format]
    and the f-strings raise [ValueError].  The conversions below are
    the ones without that limit; the two agree on the integers within
    it. *)
Definition int_max_str_digits : Z := 4300.

Definition within_str_digits (z : Z) : Prop := Z.abs z < 10 ^ int_max_str_digits.

(** A comma after every third digit, on the digits in reverse. *)
Fixpoint group3 (rev_digits : chars) : chars :=
  match rev_digits with
  | a :: b :: c :: rest =>
      match rest with
      | [] => rev_digits
      | _ :: _ => a :: b :: c :: ","%char :: group3 rest
      end
  | _ => rev_digits
  end.

(** [f"{z:,}"], for a [z] of a length CPython turns into text (see
    [within_str_digits]). *)
Definition format_comma (z : Z) : string :=
  let body :=
    string_of_list_ascii
      (rev (group3 (rev (list_ascii_of_string (digits (Z.abs_N z)))))) in
  if z <? 0 then "-" ++ body else body.

Fixpoint repeat_str (s : string) (n : nat) : string :=
  match n with
  | O => ""
  | S n' => s ++ repeat_str s n'
  end.

(** Right-aligned in [width] columns, the default for numbers. *)
Definition pad_left (width : nat) (s : string) : string :=
  repeat_str " " (width - String.length s) ++ s.

(** Left-aligned in [width] columns, the default for strings. *)
Definition pad_right (width : nat) (s : string) : string :=
  s ++ repeat_str " " (width - String.length s).

(* ================================================================== *)
(** * Floats: IEEE 754 binary64 through [SpecFloat] *)

Definition prec : Z := 53.
Definition emax : Z := 1024.

(** [float(z)], rounded to nearest even. *)
Definition float_of_int (z : Z) : spec_float := binary_normalize prec emax z 0 false.

(** An integer as an unrounded mantissa with exponent 0. *)
Definition exact_int (z : Z) : spec_float :=
  match z with
  | Z0 => S754_zero false
  | Zpos p => S754_finite false p 0
  | Zneg p => S754_finite true p 0
  end.

(** [a / b] on two [int]: the correctly rounded quotient,
    [ZeroDivisionError] for a zero divisor, [OverflowError] when the
    quotient exceeds the floats. *)
Definition truediv (a b : Z) : result spec_float :=
  if b =? 0 then Raise (ZeroDivisionError "division by zero")
  else
    match SFdiv prec emax (exact_int a) (exact_int b) with
    | S754_infinity _ =>
        Raise (OverflowError "integer division result too large for a float")
    | q => Ok q
    end.

(** [x * y] on two [float]. *)
Definition fmul (x y : spec_float) : spec_float := SFmul prec emax x y.

(** The value of an expression that is a [float] on one branch and the
    [int] literal [0] on the other. *)
Inductive number : Type :=
  | PInt (z : Z)
  | PFloat (x : spec_float).

(** Ten times a finite float [m * 2^e], rounded half to even. *)
Definition tenths (m : positive) (e : Z) : Z :=
  let num := Zpos m * 10 in
  if 0 <=? e then num * 2 ^ e
  else
    let den := 2 ^ (- e) in
    let q := num / den in
    let r := num mod den in
    match 2 * r ?= den with
    | Lt => q
    | Gt => q + 1
    | Eq => if Z.even q then q else q + 1
    end.

(** [f"{x:.1f}"] on a float: one digit after the point, the exact
    binary value rounded half to even. *)
Definition format_f1_float (x : spec_float) : string :=
  match x with
  | S754_zero s => (if s then "-" else "") ++ "0.0"
  | S754_infinity s => (if s then "-" else "") ++ "inf"
  | S754_nan => "nan"
  | S754_finite s m e =>
      let t := tenths m e in
      (if s then "-" else "")
        ++ digits (Z.to_N (t / 10)) ++ "." ++ digits (Z.to_N (t mod 10))
  end.

(** [f"{v:.1f}"]: an [int] is converted with [float] first. *)
Definition format_f1 (v : number) : string :=
  match v with
  | PInt z => format_f1_float (float_of_int z)
  | PFloat x => format_f1_float x
  end.

(* ================================================================== *)
(** * [sorted(stats.items(), key=lambda x: x[1], reverse=True)] *)

(** Stable: among equal line counts the earlier item stays first. *)
Fixpoint insert_desc (x : string * Z) (l : items_t) : items_t :=
  match l with
  | [] => [x]
  | y :: l' => if snd x <? snd y then y :: insert_desc x l' else x :: l
  end.

Fixpoint sorted_desc (l : items_t) : items_t :=
  match l with
  | [] => []
  | x :: l' => insert_desc x (sorted_desc l')
  end.

(* ================================================================== *)
(** * [format_results] *)

(** [(lines / total_lines) * 100 if total_lines > 0 else 0] *)
Definition percentage_of (lines total_lines : Z) : result number :=
  if total_lines >? 0
  then q <- truediv lines total_lines ;; Ok (PFloat (fmul q (float_of_int 100)))
  else Ok (PInt 0).

(** [lines / files if files > 0 else 0] *)
Definition avg_lines_of (lines files : Z) : result number :=
  if files >? 0
  then q <- truediv lines files ;; Ok (PFloat q)
  else Ok (PInt 0).

(** The line of the table, from the texts of its five fields. *)
Definition row_text (ext lines percentage files avg_lines : string) : string :=
  ext ++ " " ++ lines ++ " lines (" ++ percentage ++ "%) in " ++ files
      ++ " files (avg: " ++ avg_lines ++ " lines/file)".

(** The body of the loop of [format_results]. *)
Definition format_row (total_lines : Z) (file_counts : PyDict) (item : string * Z)
  : result string :=
  let '(ext, lines) := item in
  files <- getitem file_counts ext ;;
  percentage <- percentage_of lines total_lines ;;
  avg_lines <- avg_lines_of lines files ;;
  Ok (row_text (pad_right 8 ext) (pad_left 8 (format_comma lines))
               (pad_left 5 (format_f1 percentage))
               (pad_left 5 (format_comma files)) (format_f1 avg_lines)).

(** The six lines above the table. *)
Definition header (total_lines total_files : Z) : list string :=
  [ nl ++ "Lines of Code Analysis Results";
    repeat_str "=" 30;
    "Total Lines: " ++ format_comma total_lines;
    "Total Files: " ++ format_comma total_files ++ nl;
    "Breakdown by Language:";
    repeat_str "-" 20 ].

(** [format_results(stats, file_counts)] *)
Definition format_results (stats file_counts : PyDict) : result string :=
  let total_lines := sum_values (items stats) in
  let total_files := sum_values (items file_counts) in
  results <- for_each
               (fun results item =>
                  row <- format_row total_lines file_counts item ;;
                  Ok (results ++ [row])%list)
               (header total_lines total_files)
               (sorted_desc (items stats)) ;;
  Ok (String.concat nl results).

(* ================================================================== *)
(** * Notions used to state the properties *)

(** The two exclusion tests of the loop body of [analyze_repo], in the
    order the loop makes them. *)
Definition is_excluded (exclude_dirs exclude_files : list string) (file_path : Path)
  : result bool :=
  if in_excluded_dir exclude_dirs file_path then Ok true
  else any_match file_path exclude_files.

(** Following the words of the specification: a path is excluded when
    an excluded-directory entry occurs in its string form or its base
    name matches one of the glob patterns. *)
Definition is_excluded_spec (exclude_dirs exclude_files : list string) (file_path : Path)
  : bool :=
  existsb (fun d => str_contains d (path_str file_path)) exclude_dirs
  || existsb (fun pat => fnmatchcase (path_name file_path) pat) exclude_files.

(** A pattern made of one path component: no slash, not empty, not
    the single dot pathlib drops. *)
Definition single_component (pat : string) : bool :=
  negb (existsb (Ascii.eqb slash) (list_ascii_of_string pat))
  && negb (String.eqb pat "") && negb (String.eqb pat ".").

(** The loop skips the path (rather than counting it or raising). *)
Definition skipped (exclude_dirs exclude_files : list string) (file_path : Path) : bool :=
  match is_excluded exclude_dirs exclude_files file_path with
  | Ok b => b
  | Raise _ => false
  end.

(** The paths a glob yields: none when it raises. *)
Definition yielded (root : Path) (fs : FileSystem) (pattern : string) : list Path :=
  match glob root fs pattern with
  | Ok paths => paths
  | Raise _ => []
  end.

(** A pattern [Path.glob] accepts: none of its components has [**]
    inside. *)
Definition valid_glob (pattern : string) : bool :=
  negb (existsb (fun pat => negb (String.eqb pat "**") && str_contains "**" pat)
                (snd (parse_parts pattern))).

(** The number [count_lines] returns for a path (0 when it raises). *)
Definition lines_of (out : Console) (root : Path) (fs : FileSystem)
  (file_path : Path) : Z :=
  match fst (count_lines out root fs file_path) with
  | Ok n => n
  | Raise _ => 0
  end.

(** Reading the file fails with a text-decode error. *)
Definition decode_fails (root : Path) (fs : FileSystem) (file_path : Path) : bool :=
  match failure (open_text root fs file_path) with
  | Some e => is_UnicodeDecodeError e
  | None => false
  end.

(** The paths the glob of [ext] yields and the loop does not skip. *)
Definition kept (root : Path) (fs : FileSystem)
  (exclude_dirs exclude_files : list string) (ext : string) : list Path :=
  filter (fun p => negb (skipped exclude_dirs exclude_files p))
         (yielded root fs (pattern_of ext)).

(** Every path yielded, entry after entry of the extension list. *)
Definition candidates (root : Path) (fs : FileSystem) (exts : list string) : list Path :=
  flat_map (fun ext => yielded root fs (pattern_of ext)) exts.

(** The visits of a run: the pairs (entry of the extension list, path
    counted for it), in the order of the loops. *)
Definition visits (root : Path) (fs : FileSystem)
  (exclude_dirs exclude_files exts : list string) : list (string * Path) :=
  flat_map (fun ext => map (pair ext) (kept root fs exclude_dirs exclude_files ext)) exts.

(** The counters after a list of additions [d[k] += v]. *)
Definition tally (adds : list (string * Z)) : items_t :=
  fold_left (fun d kv => iadd d (fst kv) (snd kv)) adds [].

Definition zsum (l : list Z) : Z := fold_right Z.add 0 l.

Definition path_eq_dec (p q : Path) : {p = q} + {p <> q}.
Proof.
  decide equality.
  - apply (list_eq_dec String.string_dec).
  - apply Bool.bool_dec.
Defined.


(** The files that match an included extension and are not excluded,
    each listed once. *)
Definition included_files (root : Path) (fs : FileSystem)
  (exclude_dirs exclude_files exts : list string) : list Path :=
  filter (fun p => negb (skipped exclude_dirs exclude_files p))
         (nodup path_eq_dec (candidates root fs exts)).


(** A line is non-blank when stripping leaves something. *)
Definition non_blank (l : line) : bool :=
  match strip l with [] => false | _ :: _ => true end.

(** The warning of [count_lines] for a path and an exception. *)
Definition warning (file_path : Path) (e : exn) : string :=
  nl ++ "Error reading " ++ path_str file_path ++ ": " ++ exn_str e.

(** Reading the path gives [count_lines] nothing to print, or a
    warning that standard output can encode. *)
Definition can_warn (out : Console) (root : Path) (fs : FileSystem) (file_path : Path)
  : bool :=
  match failure (open_text root fs file_path) with
  | Some e => is_UnicodeDecodeError e || can_encode out (warning file_path e)
  | None => true
  end.

(** An extension entry the way the defaults are written: no slash and
    no character that [fnmatch] reads as a wildcard. *)
Definition plain_char (c : ascii) : bool :=
  negb (Ascii.eqb c "*"%char || Ascii.eqb c "?"%char || Ascii.eqb c "["%char).

Definition plain_extension (ext : string) : bool :=
  forallb plain_char (list_ascii_of_string ext)
  && negb (existsb (Ascii.eqb slash) (list_ascii_of_string ext)).



(** What one counted path does to the two counters. *)
Definition count_step (out : Console) (root : Path) (fs : FileSystem) (ext : string)
  (c : counters) (file_path : Path) : counters :=
  (iadd (fst c) ext (lines_of out root fs file_path), iadd (snd c) ext 1).

(** The paths counted for one key. *)
Definition visited_for (root : Path) (fs : FileSystem)
  (exclude_dirs exclude_files exts : list string) (ext : string) : list Path :=
  map snd (filter (fun v => String.eqb (fst v) ext)
                  (visits root fs exclude_dirs exclude_files exts)).

(** The additions a list of visits makes to [stats] and to
    [file_counts]. *)
Definition line_adds (out : Console) (root : Path) (fs : FileSystem)
  (vs : list (string * Path)) : list (string * Z) :=
  map (fun v => (fst v, lines_of out root fs (snd v))) vs.

Definition file_adds (vs : list (string * Path)) : list (string * Z) :=
  map (fun v => (fst v, 1)) vs.

(** What a key of [file_counts] reads as in the loop of
    [format_results]. *)
Definition files_of (file_counts : PyDict) (ext : string) : Z :=
  match getitem file_counts ext with
  | Ok v => v
  | Raise _ => 0
  end.

(** The line of the table for an extension without lines, when the
    total is zero too. *)
Definition zero_row (file_counts : PyDict) (ext : string) : string :=
  row_text (pad_right 8 ext) "       0" "  0.0"
           (pad_left 5 (format_comma (files_of file_counts ext))) "0.0".

(** The report for nothing at all. *)
Definition empty_report : string :=
  String.concat nl
    [ nl ++ "Lines of Code Analysis Results";
      "==============================";
      "Total Lines: 0";
      "Total Files: 0" ++ nl;
      "Breakdown by Language:";
      "--------------------" ].

(** The report of the scenario: three lines in two [.py] files. *)
Definition scenario_report : string :=
  String.concat nl
    [ nl ++ "Lines of Code Analysis Results";
      "==============================";
      "Total Lines: 3";
      "Total Files: 2" ++ nl;
      "Breakdown by Language:";
      "--------------------";
      ".py             3 lines (100.0%) in     2 files (avg: 1.5 lines/file)" ].

(* ================================================================== *)
(** * Sample consoles and trees *)

(** A UTF-8 stream: it has every character. *)
Definition utf8_console : Console := mkConsole (fun _ => true) (fun _ => "").





Definition proj : Path := mkPath false ["proj"].

(** [a.py] with three non-blank lines and a blank one, [b.py] empty. *)
Definition fs_scenario : FileSystem :=
  [ (["a.py"],
     mkTextFile [ln "import os"; ln ""; ln "x = 1"; ln "print(x)"] None);
    (["b.py"], mkTextFile [] None) ].

(** A file that is not UTF-8 text, a directory whose name ends in
    [.py], and a text file. *)
Definition fs_unreadable : FileSystem :=
  [ (["logo.py"],
     mkTextFile [] (Some (UnicodeDecodeError
       "'utf-8' codec can't decode byte 0x89 in position 0: invalid start byte")));
    (["pkg.py"],
     mkTextFile [] (Some (OSError "[Errno 21] Is a directory: 'proj/pkg.py'")));
    (["pkg.py"; "mod.py"], mkTextFile [ln "pass"] None) ].


(** A minified script next to its source, and a nested test. *)
Definition fs_web : FileSystem :=
  [ (["app.js"], mkTextFile [ln "let a = 1;"; ln "a += 1;"] None);
    (["app.min.js"], mkTextFile [text "let a=1;a+=1;"] None);
    (["src"; "a.py"], mkTextFile [ln "pass"] None);
    (["my-build-tools"; "run.py"], mkTextFile [ln "pass"] None) ].

(* ================================================================== *)
(** * The entry point *)


(** The keys of a list of additions, each at its first occurrence. *)
Fixpoint first_occurrences (seen l : list string) : list string :=
  match l with
  | [] => []
  | k :: r =>
      if existsb (String.eqb k) seen then first_occurrences seen r
      else k :: first_occurrences (k :: seen) r
  end.

(* ================================================================== *)
(** * [ProgressLogger] *)

Definition cr : string := String (ascii_of_nat 13) EmptyString.

(** [str(z)] for an [int] of a length CPython turns into text (see
    [within_str_digits]). *)
Definition str_int (z : Z) : string :=
  if z <? 0 then "-" ++ digits (Z.abs_N z) else digits (Z.to_N z).

(** [s * n]: the empty string when [n] is not positive (a repetition
    too long for the memory of the machine is outside the model). *)
Definition str_times (s : string) (n : Z) : string := repeat_str s (Z.to_nat n).

(** [x / y] on two [float]. *)
Definition fdiv (x y : spec_float) : result spec_float :=
  match y with
  | S754_zero _ => Raise (ZeroDivisionError "float division by zero")
  | _ => Ok (SFdiv prec emax x y)
  end.

(** [int(x)]: truncation towards zero. *)
Definition int_of_float (x : spec_float) : result Z :=
  match x with
  | S754_zero _ => Ok 0
  | S754_infinity _ => Raise (OverflowError "cannot convert float infinity to integer")
  | S754_nan => Raise (ValueError "cannot convert float NaN to integer")
  | S754_finite s m e =>
      let v := if 0 <=? e then Zpos m * 2 ^ e else Zpos m / 2 ^ (- e) in
      Ok (if s then - v else v)
  end.

(** The float literal [0.1]. *)
Definition tenth_of_second : spec_float := S754_finite false 7205759403792794 (-56).


(** The fields of a [ProgressLogger]; [total] is [None] when the
    logger is made without one. *)
Record ProgressLogger : Type := mkLogger {
  total : option Z;
  current : Z;
  start_time : spec_float;
  last_update : spec_float;
  update_interval : spec_float
}.


(** [_create_progress_bar(percentage, width)] *)
Definition _create_progress_bar (percentage : spec_float) (width : Z) : result string :=
  x <- fdiv (fmul (float_of_int width) percentage) (float_of_int 100) ;;
  filled <- int_of_float x ;;
  Ok ("[" ++ str_times "=" filled ++ str_times " " (width - filled) ++ "]").

(** [_print_progress()]: the text written to the console. *)
Definition _print_progress (self : ProgressLogger) : result string :=
  let counting :=
    Ok (cr ++ "Processed " ++ str_int (current self) ++ " files...") in
  match total self with
  | None => counting
  | Some t =>
      if t =? 0 then counting
      else
        q <- truediv (current self) t ;;
        let percentage := fmul q (float_of_int 100) in
        progress_bar <- _create_progress_bar percentage 30 ;;
        Ok (cr ++ progress_bar ++ " " ++ format_f1_float percentage ++ "% ("
               ++ str_int (current self) ++ "/" ++ str_int t ++ ")")
  end.









(** A Dart package with a generated file, a file whose name merely
    ends in the letters [dart], and a dependency directory. *)
Definition fs_dart : FileSystem :=
  [ (["lib"; "main.dart"], mkTextFile [ln "void main() {}"] None);
    (["lib"; "main.g.dart"], mkTextFile [ln "// generated"] None);
    (["mustdart"], mkTextFile [ln "notes"; ln "more notes"] None);
    (["node_modules"; "lib.js"], mkTextFile [ln "module.exports = 1;"] None) ].

(* ================================================================== *)
(** * Properties of [count_lines] *)

Section CountLines.

Lemma lstrip_nil (l : line) : lstrip l = [] <-> forallb isspace l = true.
Proof.
  induction l as [|c r IH]; simpl.
  - tauto.
  - destruct (isspace c); simpl.
    + exact IH.
    + split; discriminate.
Qed.

Lemma lstrip_idempotent (l : line) : lstrip (lstrip l) = lstrip l.
Proof.
  induction l as [|c r IH]; simpl; trivial.
  destruct (isspace c) eqn:E; trivial.
  simpl. now rewrite E.
Qed.

Lemma forallb_rev {A : Type} (f : A -> bool) (l : list A) :
  forallb f (rev l) = forallb f l.
Proof.
  induction l as [|a r IH]; simpl; trivial.
  rewrite forallb_app, IH. simpl. rewrite andb_true_r. apply andb_comm.
Qed.

Lemma rev_nil_inv {A : Type} (l : list A) : rev l = [] -> l = [].
Proof.
  intro H. apply (f_equal (@rev A)) in H. now rewrite rev_involutive in H.
Qed.

(** Stripping leaves nothing exactly when every character is
    whitespace. *)
Lemma strip_nil (l : line) : strip l = [] <-> forallb isspace l = true.
Proof.
  unfold strip, rstrip. split.
  - intro H. apply rev_nil_inv in H.
    apply lstrip_nil in H. rewrite forallb_rev in H.
    apply lstrip_nil in H. rewrite lstrip_idempotent in H.
    now apply lstrip_nil.
  - intro H. apply lstrip_nil in H. rewrite H. reflexivity.
Qed.

Lemma non_blank_truthy (l : line) : truthy (strip l) = non_blank l.
Proof. reflexivity. Qed.

Lemma non_blank_spec (l : line) :
  non_blank l = true <-> exists c, In c l /\ isspace c = false.
Proof.
  unfold non_blank. split.
  - intro H.
    destruct (forallb isspace l) eqn:E.
    + apply strip_nil in E. rewrite E in H. discriminate.
    + clear H. induction l as [|c r IH]; simpl in E; try discriminate.
      destruct (isspace c) eqn:Ec.
      * destruct (IH E) as [c' [Hin Hc']]. exists c'. simpl. auto.
      * exists c. simpl. auto.
  - intros [c [Hin Hc]].
    destruct (strip l) eqn:E; trivial.
    apply strip_nil in E. rewrite forallb_forall in E.
    rewrite (E c Hin) in Hc. discriminate.
Qed.

Lemma sum_gen_eof (ls : list line) (acc : Z) :
  sum_gen acc ls None = Ok (acc + Z.of_nat (List.length (filter non_blank ls))).
Proof.
  revert acc. induction ls as [|l r IH]; intro acc; simpl.
  - f_equal. lia.
  - rewrite IH, non_blank_truthy.
    destruct (non_blank l); simpl List.length; f_equal; lia.
Qed.

Lemma sum_gen_raises (ls : list line) (acc : Z) (e : exn) :
  sum_gen acc ls (Some e) = Raise e.
Proof.
  revert acc. induction ls as [|l r IH]; intro acc; simpl; trivial.
Qed.

(** What [count_lines] returns is what [lines_of] names. *)
Lemma count_lines_ok (out : Console) (root : Path) (fs : FileSystem) (p : Path) (n : Z) :
  fst (count_lines out root fs p) = Ok n -> n = lines_of out root fs p.
Proof. unfold lines_of. intro H. now rewrite H. Qed.

Lemma filter_blank_lines (ls : list line) :
  Forall (fun l => forall c, In c l -> isspace c = true) ls ->
  filter non_blank ls = [].
Proof.
  induction 1 as [|l r Hl _ IH]; simpl; trivial.
  destruct (non_blank l) eqn:E; trivial.
  apply non_blank_spec in E. destruct E as [c [Hin Hc]].
  rewrite (Hl c Hin) in Hc. discriminate.
Qed.

(** A read that fails is caught by one of the two handlers; the
    second one prints, and the print may fail. *)
Lemma count_lines_failure (out : Console) (root : Path) (fs : FileSystem) (p : Path)
  (e : exn) :
  failure (open_text root fs p) = Some e ->
  count_lines out root fs p
  = if is_UnicodeDecodeError e then (Ok 0, [])
    else if can_encode out (warning p e) then (Ok 0, [warning p e])
    else (Raise (UnicodeEncodeError (codec_error out (warning p e))), []).
Proof.
  intro He. unfold count_lines, print. rewrite He, sum_gen_raises.
  fold (warning p e).
  destruct e; simpl; trivial; destruct (can_encode out _); reflexivity.
Qed.

Lemma count_lines_returns (out : Console) (root : Path) (fs : FileSystem) (p : Path) :
  can_warn out root fs p = true ->
  fst (count_lines out root fs p) = Ok (lines_of out root fs p).
Proof.
  unfold can_warn, lines_of. intro H.
  destruct (failure (open_text root fs p)) as [e|] eqn:E.
  - rewrite (count_lines_failure out root fs p e E).
    destruct (is_UnicodeDecodeError e); simpl in *; trivial.
    now rewrite H.
  - unfold count_lines. rewrite E, sum_gen_eof. reflexivity.
Qed.



(** C4. On a file that reads to its end, [count_lines] returns the
    number of non-blank lines and prints nothing; a line is non-blank
    exactly when it holds a character that is not whitespace; so a file
    of blank and whitespace-only lines counts 0. *)
Theorem count_lines_counts_non_blank (out : Console) (root : Path) (fs : FileSystem) (p : Path) :
  failure (open_text root fs p) = None ->
  count_lines out root fs p
  = (Ok (Z.of_nat (List.length (filter non_blank (yields (open_text root fs p))))), [])
  /\ (forall l, non_blank l = true <-> exists c, In c l /\ isspace c = false)
  /\ (Forall (fun l => forall c, In c l -> isspace c = true)
             (yields (open_text root fs p)) ->
      count_lines out root fs p = (Ok 0, [])).
Proof.
  intro Hend.
  assert (Hc : count_lines out root fs p
    = (Ok (Z.of_nat (List.length (filter non_blank (yields (open_text root fs p))))), [])).
  { unfold count_lines. rewrite Hend, sum_gen_eof. reflexivity. }
  split; [exact Hc|]. split; [exact non_blank_spec|].
  intro Hblank. rewrite Hc, (filter_blank_lines _ Hblank). reflexivity.
Qed.

End CountLines.

(* ================================================================== *)
(** * Dictionaries and loops *)

Section Counters.

Lemma fold_left_add_shift (d : items_t) (a : Z) :
  fold_left (fun acc kv => acc + snd kv) d a = a + sum_values d.
Proof.
  unfold sum_values.
  assert (H : forall a b, fold_left (fun acc kv => acc + snd kv) d (a + b)
                          = a + fold_left (fun acc kv => acc + snd kv) d b).
  { induction d as [|kv d IH]; intros x y; simpl; trivial.
    rewrite <- Z.add_assoc. apply IH. }
  rewrite <- H. f_equal. lia.
Qed.

Lemma sum_values_cons (kv : string * Z) (d : items_t) :
  sum_values (kv :: d) = snd kv + sum_values d.
Proof.
  unfold sum_values at 1. simpl. rewrite fold_left_add_shift. lia.
Qed.

Lemma sum_values_iadd (d : items_t) (k : string) (v : Z) :
  sum_values (iadd d k v) = sum_values d + v.
Proof.
  induction d as [|[k' v'] d IH]; simpl.
  - rewrite sum_values_cons. simpl. unfold sum_values. simpl. lia.
  - destruct (String.eqb k' k); rewrite !sum_values_cons; simpl.
    + lia.
    + rewrite IH. lia.
Qed.

Lemma count_of_iadd (d : items_t) (k k' : string) (v : Z) :
  count_of (iadd d k v) k' = count_of d k' + (if String.eqb k k' then v else 0).
Proof.
  unfold count_of.
  induction d as [|[k0 v0] d IH]; simpl.
  - destruct (String.eqb k k'); lia.
  - destruct (String.eqb k0 k) eqn:E0; simpl.
    + apply String.eqb_eq in E0. subst k0.
      destruct (String.eqb k k'); lia.
    + destruct (String.eqb k0 k') eqn:E1.
      * apply String.eqb_eq in E1. subst k0.
        rewrite String.eqb_sym, E0. lia.
      * exact IH.
Qed.

Lemma tally_snoc (adds : list (string * Z)) (kv : string * Z) :
  tally (adds ++ [kv]) = iadd (tally adds) (fst kv) (snd kv).
Proof. unfold tally. now rewrite fold_left_app. Qed.

Lemma rev_list_ind {A : Type} (P : list A -> Prop) :
  P [] -> (forall a l, P l -> P (l ++ [a])%list) -> forall l, P l.
Proof.
  intros H0 Hs l. rewrite <- (rev_involutive l).
  induction (rev l) as [|a r IH]; simpl; auto.
Qed.

Lemma zsum_app (a b : list Z) : zsum (a ++ b) = zsum a + zsum b.
Proof. induction a as [|x a IH]; simpl; lia. Qed.

(** The values of a tally add up to what was added. *)
Lemma sum_values_tally (adds : list (string * Z)) :
  sum_values (tally adds) = zsum (map snd adds).
Proof.
  induction adds as [|kv adds IH] using rev_list_ind.
  - reflexivity.
  - rewrite tally_snoc, sum_values_iadd, IH, map_app, zsum_app. simpl. lia.
Qed.

(** A key of a tally holds what was added under that key. *)
Lemma count_of_tally (adds : list (string * Z)) (k : string) :
  count_of (tally adds) k
  = zsum (map snd (filter (fun kv => String.eqb (fst kv) k) adds)).
Proof.
  induction adds as [|kv adds IH] using rev_list_ind.
  - reflexivity.
  - rewrite tally_snoc, count_of_iadd, IH, filter_app, map_app, zsum_app.
    simpl. destruct (String.eqb (fst kv) k); simpl; lia.
Qed.

Lemma for_each_app {A S : Type} (body : S -> A -> result S) (s : S) (l1 l2 : list A) :
  for_each body s (l1 ++ l2) = (s' <- for_each body s l1 ;; for_each body s' l2).
Proof.
  revert s. induction l1 as [|a l1 IH]; intro s; simpl; trivial.
  destruct (body s a); simpl; auto.
Qed.

(** A loop whose body either leaves the state alone or applies [step],
    when it ends without raising, has folded [step] over the elements it
    did not skip. *)
Lemma for_each_fold {A S : Type} (body : S -> A -> result S)
  (skip : A -> bool) (step : S -> A -> S) (l : list A) :
  (forall s a s', body s a = Ok s' -> s' = if skip a then s else step s a) ->
  forall s s', for_each body s l = Ok s' ->
               s' = fold_left step (filter (fun a => negb (skip a)) l) s.
Proof.
  intro Hbody. induction l as [|a l IH]; intros s s' H; simpl in *.
  - now inversion H.
  - destruct (body s a) as [s1|e] eqn:E; simpl in H; try discriminate.
    apply Hbody in E. subst s1.
    destruct (skip a); simpl; auto.
Qed.

End Counters.

(* ================================================================== *)
(** * The loops of [analyze_repo] *)

Section Scan.

Variables (out : Console) (root : Path) (fs : FileSystem).
Variables (xd xf : list string).

Lemma visit_ok (ext : string) (c c' : counters) (p : Path) :
  visit out root fs xd xf ext c p = Ok c' ->
  c' = if skipped xd xf p then c else count_step out root fs ext c p.
Proof.
  unfold visit, skipped, is_excluded.
  destruct (in_excluded_dir xd p).
  - now inversion 1.
  - destruct (any_match p xf) as [[|]|e]; simpl.
    + now inversion 1.
    + destruct (fst (count_lines out root fs p)) as [n|e] eqn:E; simpl;
        [|discriminate].
      apply count_lines_ok in E. subst n. now inversion 1.
    + discriminate.
Qed.

Lemma inner_loop (ext : string) (c c' : counters) :
  for_each (visit out root fs xd xf ext) c (yielded root fs (pattern_of ext)) = Ok c' ->
  c' = fold_left (count_step out root fs ext) (kept root fs xd xf ext) c.
Proof.
  unfold kept. apply for_each_fold. intros s a s'. apply visit_ok.
Qed.

Lemma fold_left_pairs {A B S : Type} (f : S -> A * B -> S) (a : A) (l : list B) (s : S) :
  fold_left f (map (pair a) l) s = fold_left (fun s b => f s (a, b)) l s.
Proof. revert s. induction l as [|b l IH]; intro s; simpl; auto. Qed.

Lemma outer_loop (exts : list string) (c c' : counters) :
  for_each (fun c ext =>
              for_each (visit out root fs xd xf ext) c
                       (yielded root fs (pattern_of ext)))
           c exts = Ok c' ->
  c' = fold_left (fun c v => count_step out root fs (fst v) c (snd v))
                 (visits root fs xd xf exts) c.
Proof.
  revert c. induction exts as [|ext exts IH]; intros c H; simpl in *.
  - now inversion H.
  - destruct (for_each (visit out root fs xd xf ext) c _) as [c1|e] eqn:E;
      simpl in H; try discriminate.
    apply inner_loop in E. subst c1. apply IH in H. rewrite H.
    unfold visits. simpl. rewrite fold_left_app, fold_left_pairs. reflexivity.
Qed.

Lemma fold_count_step (vs : list (string * Path)) (c : counters) :
  fold_left (fun c v => count_step out root fs (fst v) c (snd v)) vs c
  = (fold_left (fun d kv => iadd d (fst kv) (snd kv)) (line_adds out root fs vs) (fst c),
     fold_left (fun d kv => iadd d (fst kv) (snd kv)) (file_adds vs) (snd c)).
Proof.
  revert c. induction vs as [|v vs IH]; intro c; simpl.
  - now destruct c.
  - rewrite IH. reflexivity.
Qed.

Lemma visits_paths (exts : list string) :
  map snd (visits root fs xd xf exts)
  = filter (fun p => negb (skipped xd xf p)) (candidates root fs exts).
Proof.
  unfold visits, candidates.
  induction exts as [|ext exts IH]; simpl; trivial.
  rewrite map_app, filter_app, IH, map_map. simpl. rewrite map_id. reflexivity.
Qed.

(** A pattern the selector accepts yields its paths; any other makes
    the glob raise, always the same exception. *)
Lemma glob_valid (pattern : string) :
  valid_glob pattern = true -> glob root fs pattern = Ok (yielded root fs pattern).
Proof.
  unfold yielded, glob, _make_selector, valid_glob. intro H.
  apply negb_true_iff in H. now rewrite H.
Qed.

Lemma glob_invalid (pattern : string) :
  valid_glob pattern = false ->
  glob root fs pattern
  = Raise (ValueError "Invalid pattern: '**' can only be an entire path component").
Proof.
  unfold glob, _make_selector, valid_glob. intro H.
  apply negb_false_iff in H. now rewrite H.
Qed.

Lemma glob_raise (pattern : string) (e : exn) :
  glob root fs pattern = Raise e ->
  valid_glob pattern = false
  /\ e = ValueError "Invalid pattern: '**' can only be an entire path component".
Proof.
  destruct (valid_glob pattern) eqn:V.
  - rewrite (glob_valid _ V). discriminate.
  - rewrite (glob_invalid _ V). inversion 1. auto.
Qed.

(** The total is the number of paths yielded; it is not computed when
    one of the entries makes its glob raise. *)
Lemma get_total_files_candidates (exts : list string) :
  get_total_files root fs exts
  = if forallb (fun ext => valid_glob (pattern_of ext)) exts
    then Ok (Z.of_nat (List.length (candidates root fs exts)))
    else Raise (ValueError "Invalid pattern: '**' can only be an entire path component").
Proof.
  unfold get_total_files, candidates.
  assert (H : forall a,
    for_each (fun total ext =>
                paths <- glob root fs (pattern_of ext) ;;
                Ok (total + Z.of_nat (List.length paths))) a exts
    = if forallb (fun ext => valid_glob (pattern_of ext)) exts
      then Ok (a + Z.of_nat (List.length
                               (flat_map (fun ext => yielded root fs (pattern_of ext))
                                         exts)))
      else Raise (ValueError
                    "Invalid pattern: '**' can only be an entire path component")).
  { induction exts as [|ext exts IH]; intro a; cbn [for_each forallb flat_map].
    - f_equal. simpl. lia.
    - destruct (valid_glob (pattern_of ext)) eqn:V.
      + rewrite (glob_valid _ V). cbn [bind andb]. rewrite IH.
        destruct (forallb _ exts); trivial.
        f_equal. rewrite length_app. lia.
      + rewrite (glob_invalid _ V). reflexivity. }
  rewrite H. destruct (forallb _ exts); trivial.
Qed.

(** Once every entry is accepted, the loops run over the paths
    yielded. *)
Lemma scan_loop_yielded {S : Type} (body : string -> S -> Path -> result S)
  (exts : list string) :
  forallb (fun ext => valid_glob (pattern_of ext)) exts = true ->
  forall s,
    for_each (fun s ext =>
                paths <- glob root fs (pattern_of ext) ;; for_each (body ext) s paths)
             s exts
    = for_each (fun s ext => for_each (body ext) s (yielded root fs (pattern_of ext)))
               s exts.
Proof.
  induction exts as [|ext exts IH]; intros H s; cbn [for_each]; trivial.
  cbn [forallb] in H. apply andb_true_iff in H. destruct H as [V H].
  rewrite (glob_valid _ V). cbn [bind].
  destruct (for_each (body ext) s _); cbn [bind]; auto.
Qed.

Lemma zsum_ones {A : Type} (l : list A) (f : A -> string) :
  zsum (map snd (map (fun v => (f v, 1)) l)) = Z.of_nat (List.length l).
Proof.
  induction l as [|a l IH]; [reflexivity|].
  change (1 + zsum (map snd (map (fun v => (f v, 1)) l)) = Z.of_nat (S (List.length l))).
  rewrite IH, Nat2Z.inj_succ. lia.
Qed.

End Scan.

(** [analyze_repo] by cases: an entry of the extension list that the
    glob refuses ends it before the loops; otherwise the loops run
    over the paths yielded. *)
Lemma analyze_repo_unfold (out : Console) (root : Path) (fs : FileSystem)
  (exclude_dirs exclude_files include_extensions : option (list string)) :
  analyze_repo out root fs exclude_dirs exclude_files include_extensions
  = let xd := or_default exclude_dirs default_exclude_dirs in
    let xf := or_default exclude_files default_exclude_files in
    let exts := or_default include_extensions default_include_extensions in
    if forallb (fun ext => valid_glob (pattern_of ext)) exts
    then
      c <- for_each (fun c ext =>
                       for_each (visit out root fs xd xf ext) c
                                (yielded root fs (pattern_of ext)))
                    ([], []) exts ;;
      Ok (mkDict DefaultDictInt (fst c), mkDict DefaultDictInt (snd c))
    else Raise (ValueError "Invalid pattern: '**' can only be an entire path component").
Proof.
  unfold analyze_repo. cbv zeta.
  rewrite get_total_files_candidates.
  destruct (forallb _ _) eqn:V; trivial. cbn [bind].
  now rewrite (scan_loop_yielded root fs (visit out root fs _ _) _ V).
Qed.

(** What [analyze_repo] returns is the tally of its visits. *)
Lemma analyze_repo_tally (out : Console) (root : Path) (fs : FileSystem)
  (exclude_dirs exclude_files include_extensions : option (list string))
  (stats file_counts : PyDict) :
  analyze_repo out root fs exclude_dirs exclude_files include_extensions
  = Ok (stats, file_counts) ->
  let vs := visits root fs (or_default exclude_dirs default_exclude_dirs)
                   (or_default exclude_files default_exclude_files)
                   (or_default include_extensions default_include_extensions) in
  stats = mkDict DefaultDictInt (tally (line_adds out root fs vs)) /\
  file_counts = mkDict DefaultDictInt (tally (file_adds vs)).
Proof.
  rewrite analyze_repo_unfold. cbv zeta. intro H.
  destruct (forallb _ _); [|discriminate].
  destruct (for_each _ _ _) as [c|e] eqn:E; simpl in H; try discriminate.
  apply outer_loop in E. rewrite fold_count_step in E. subst c.
  inversion H. split; reflexivity.
Qed.



Lemma for_each_total {A S : Type} (body : S -> A -> result S) (l : list A) :
  (forall s a, exists s', body s a = Ok s') ->
  forall s, exists s', for_each body s l = Ok s'.
Proof.
  intro Hbody. induction l as [|a l IH]; intro s; simpl; [eauto|].
  destruct (Hbody s a) as [s1 H1]. rewrite H1. simpl. apply IH.
Qed.

(** A scan that returns was given extension entries that the glob
    accepts, and its total was computed. *)
Lemma analyze_repo_valid (out : Console) (root : Path) (fs : FileSystem)
  (exclude_dirs exclude_files include_extensions : option (list string))
  (r : PyDict * PyDict) :
  analyze_repo out root fs exclude_dirs exclude_files include_extensions = Ok r ->
  let exts := or_default include_extensions default_include_extensions in
  forallb (fun ext => valid_glob (pattern_of ext)) exts = true
  /\ get_total_files root fs exts = Ok (Z.of_nat (List.length (candidates root fs exts))).
Proof.
  rewrite analyze_repo_unfold. cbv zeta. intro H.
  rewrite get_total_files_candidates.
  destruct (forallb _ _); [auto|discriminate].
Qed.

(* ================================================================== *)
(** * Totals of a scan *)

Section Totals.

Lemma filter_keyed {A : Type} (g : A -> Z) (k : string) (vs : list (string * A)) :
  filter (fun kv => String.eqb (fst kv) k) (map (fun v => (fst v, g (snd v))) vs)
  = map (fun v => (fst v, g (snd v))) (filter (fun v => String.eqb (fst v) k) vs).
Proof.
  induction vs as [|v vs IH]; simpl; trivial.
  destruct (String.eqb (fst v) k); simpl; now rewrite IH.
Qed.

Lemma NoDup_filter_keeps {A : Type} (f : A -> bool) (l : list A) :
  NoDup l -> NoDup (filter f l).
Proof.
  induction 1 as [|a l Hna _ IH]; simpl; [constructor|].
  destruct (f a); trivial.
  constructor; trivial. intro Hin. apply filter_In in Hin. tauto.
Qed.

Lemma zsum_filter_zero {A : Type} (f : A -> Z) (g : A -> bool) (l : list A) :
  (forall a, g a = false -> f a = 0) ->
  zsum (map f l) = zsum (map f (filter g l)).
Proof.
  intro H. induction l as [|a l IH]; simpl; trivial.
  destruct (g a) eqn:E; simpl.
  - now rewrite IH.
  - rewrite (H a E), IH. lia.
Qed.

Lemma lines_of_decode_failure (out : Console) (root : Path) (fs : FileSystem) (p : Path) :
  decode_fails root fs p = true -> lines_of out root fs p = 0.
Proof.
  unfold decode_fails, lines_of.
  destruct (failure (open_text root fs p)) as [e|] eqn:E; try discriminate.
  intro He.
  rewrite (count_lines_failure out root fs p e E), He.
  reflexivity.
Qed.

Lemma can_warn_decode_failure (out : Console) (root : Path) (fs : FileSystem) (p : Path) :
  decode_fails root fs p = true -> can_warn out root fs p = true.
Proof.
  unfold decode_fails, can_warn.
  destruct (failure (open_text root fs p)) as [e|]; trivial.
  now intros ->.
Qed.

End Totals.

(* ================================================================== *)
(** * The claims about [analyze_repo] *)

(** C1, as amended.  The line counts returned by [analyze_repo] add up
    to the sum of [count_lines] over the visits of the run: one visit
    for every entry of the extension list and every path that entry's
    glob yields and the exclusion tests let through.  The sum runs over
    the included, non-excluded files, each taken once, when no path is
    yielded for two entries of the list. *)
Theorem line_total_is_sum_over_visits (out : Console) (root : Path) (fs : FileSystem)
  (exclude_dirs exclude_files include_extensions : option (list string))
  (stats file_counts : PyDict) :
  analyze_repo out root fs exclude_dirs exclude_files include_extensions
  = Ok (stats, file_counts) ->
  let xd := or_default exclude_dirs default_exclude_dirs in
  let xf := or_default exclude_files default_exclude_files in
  let exts := or_default include_extensions default_include_extensions in
  sum_values (items stats)
  = zsum (map (lines_of out root fs) (map snd (visits root fs xd xf exts)))
  /\ (NoDup (candidates root fs exts) ->
      sum_values (items stats)
      = zsum (map (lines_of out root fs) (included_files root fs xd xf exts))).
Proof.
  intros H xd xf exts.
  destruct (analyze_repo_tally _ _ _ _ _ _ _ _ H) as [Hs _]. fold xd xf exts in Hs.
  assert (Hsum : sum_values (items stats)
                 = zsum (map (lines_of out root fs) (map snd (visits root fs xd xf exts)))).
  { rewrite Hs. simpl. rewrite sum_values_tally. unfold line_adds.
    now rewrite !map_map. }
  split; [exact Hsum|].
  intro Hnd. rewrite Hsum, visits_paths. unfold included_files.
  now rewrite (nodup_fixed_point path_eq_dec Hnd).
Qed.

(** C2, as amended.  The two dictionaries are the tally of the visits:
    every visit adds the file's lines to the bucket of its entry and 1
    to that bucket's file count, once.  When no path is yielded for two
    entries of the extension list, no file is visited twice. *)
Theorem counters_are_tally_of_visits (out : Console) (root : Path) (fs : FileSystem)
  (exclude_dirs exclude_files include_extensions : option (list string))
  (stats file_counts : PyDict) :
  analyze_repo out root fs exclude_dirs exclude_files include_extensions
  = Ok (stats, file_counts) ->
  let xd := or_default exclude_dirs default_exclude_dirs in
  let xf := or_default exclude_files default_exclude_files in
  let exts := or_default include_extensions default_include_extensions in
  let vs := visits root fs xd xf exts in
  items stats = tally (line_adds out root fs vs)
  /\ items file_counts = tally (file_adds vs)
  /\ (NoDup (candidates root fs exts) -> NoDup (map snd vs)).
Proof.
  intros H xd xf exts vs.
  destruct (analyze_repo_tally _ _ _ _ _ _ _ _ H) as [Hs Hf].
  fold xd xf exts in Hs, Hf. fold vs in Hs, Hf. subst stats file_counts.
  repeat split.
  intro Hnd. unfold vs. rewrite visits_paths. now apply NoDup_filter_keeps.
Qed.

(** C9.  For every key, the file count is the number of paths visited
    for it, the ones that fail to decode included, while the line count
    is the sum of [count_lines] over the visited paths that do not fail
    to decode: a file that fails to decode adds 1 to the file count and
    0 to the line count. *)
Theorem decode_failures_count_as_files (out : Console) (root : Path) (fs : FileSystem)
  (exclude_dirs exclude_files include_extensions : option (list string))
  (stats file_counts : PyDict) :
  analyze_repo out root fs exclude_dirs exclude_files include_extensions
  = Ok (stats, file_counts) ->
  let xd := or_default exclude_dirs default_exclude_dirs in
  let xf := or_default exclude_files default_exclude_files in
  let exts := or_default include_extensions default_include_extensions in
  forall ext,
    count_of (items file_counts) ext
    = Z.of_nat (List.length (visited_for root fs xd xf exts ext))
    /\ count_of (items stats) ext
       = zsum (map (lines_of out root fs)
                   (filter (fun p => negb (decode_fails root fs p))
                           (visited_for root fs xd xf exts ext)))
    /\ (forall c p, is_excluded xd xf p = Ok false ->
                    decode_fails root fs p = true ->
                    visit out root fs xd xf ext c p
                    = Ok (iadd (fst c) ext 0, iadd (snd c) ext 1)).
Proof.
  intros H xd xf exts ext.
  destruct (analyze_repo_tally _ _ _ _ _ _ _ _ H) as [Hs Hf].
  fold xd xf exts in Hs, Hf. subst stats file_counts. simpl items.
  unfold visited_for. split; [|split].
  - rewrite count_of_tally. unfold file_adds.
    rewrite (filter_keyed (fun _ => 1)), zsum_ones. now rewrite length_map.
  - rewrite count_of_tally. unfold line_adds.
    rewrite (filter_keyed (lines_of out root fs)), map_map. simpl.
    rewrite <- (map_map snd (lines_of out root fs)).
    apply zsum_filter_zero. intros p Hp.
    apply lines_of_decode_failure. now destruct (decode_fails root fs p).
  - intros c p Hex Hdec. unfold visit.
    unfold is_excluded in Hex.
    destruct (in_excluded_dir xd p); try discriminate.
    rewrite Hex. simpl.
    rewrite count_lines_returns by now apply can_warn_decode_failure.
    simpl. now rewrite (lines_of_decode_failure _ _ _ _ Hdec).
Qed.

(** C10.  The total [get_total_files] announces is at least the number
    of files the scan goes on to count. *)
Theorem total_files_bounds_processed (out : Console) (root : Path) (fs : FileSystem)
  (exclude_dirs exclude_files include_extensions : option (list string))
  (stats file_counts : PyDict) :
  analyze_repo out root fs exclude_dirs exclude_files include_extensions
  = Ok (stats, file_counts) ->
  exists total_files,
    get_total_files root fs
      (or_default include_extensions default_include_extensions)
    = Ok total_files
    /\ sum_values (items file_counts) <= total_files.
Proof.
  intro H. destruct (analyze_repo_tally _ _ _ _ _ _ _ _ H) as [_ Hf].
  destruct (analyze_repo_valid _ _ _ _ _ _ _ H) as [_ Ht].
  eexists. split; [exact Ht|].
  subst file_counts. simpl items.
  rewrite sum_values_tally.
  unfold file_adds. rewrite zsum_ones.
  rewrite <- (length_map snd), visits_paths.
  apply Nat2Z.inj_le, filter_length_le.
Qed.

(* ================================================================== *)
(** * Exclusion *)

Section Exclusion.

Lemma strip_root_app (rs rel : list string) : strip_root rs (rs ++ rel) = Some rel.
Proof.
  induction rs as [|r rs IH]; simpl.
  - now destruct rel.
  - now rewrite String.eqb_refl.
Qed.




(** Opening a path below the root finds its entry. *)
Lemma open_text_join (root : Path) (fs : FileSystem) (rel : list string) :
  open_text root fs (joinpath root rel)
  = match lookup_entry rel fs with
    | Some f => f
    | None => missing (joinpath root rel)
    end.
Proof.
  unfold open_text, joinpath. simpl.
  now rewrite Bool.eqb_reflx, strip_root_app.
Qed.



(** The paths yielded, spelled out. *)
Lemma yielded_eq (root : Path) (fs : FileSystem) (pattern : string) :
  yielded root fs pattern
  = if valid_glob pattern
    then map (fun e => joinpath root (fst e))
             (filter (fun e => selector (snd (parse_parts pattern)) (fst e)) fs)
    else [].
Proof.
  unfold yielded, glob, _make_selector, valid_glob.
  now destruct (existsb _ _).
Qed.






Lemma for_each_all {A S : Type} (body : S -> A -> result S) (P : A -> Prop)
  (l : list A) :
  (forall s a s', body s a = Ok s' -> P a) ->
  forall s r, for_each body s l = Ok r -> Forall P l.
Proof.
  intro Hb. induction l as [|a l IH]; intros s r H; simpl in H; constructor.
  - destruct (body s a) eqn:E; simpl in H; try discriminate. eauto.
  - destruct (body s a) eqn:E; simpl in H; try discriminate. eauto.
Qed.

Lemma visit_decides (out : Console) (root : Path) (fs : FileSystem) (xd xf : list string)
  (ext : string) (c c' : counters) (p : Path) :
  visit out root fs xd xf ext c p = Ok c' -> exists b, is_excluded xd xf p = Ok b.
Proof.
  unfold visit, is_excluded.
  destruct (in_excluded_dir xd p); [eauto|].
  destruct (any_match p xf); simpl; [eauto|discriminate].
Qed.

(** A scan that returns has decided the exclusion of every path its
    globs yielded. *)
Lemma scan_decides (out : Console) (root : Path) (fs : FileSystem) (xd xf exts : list string)
  (c c' : counters) :
  for_each (fun c ext =>
              for_each (visit out root fs xd xf ext) c (yielded root fs (pattern_of ext)))
           c exts = Ok c' ->
  forall p, In p (candidates root fs exts) -> exists b, is_excluded xd xf p = Ok b.
Proof.
  revert c. unfold candidates.
  induction exts as [|ext exts IH]; intros c H p Hin; simpl in *; [tauto|].
  destruct (for_each (visit out root fs xd xf ext) c _) as [c1|e] eqn:E;
    simpl in H; try discriminate.
  apply in_app_or in Hin. destruct Hin as [Hin|Hin].
  - apply (for_each_all _ (fun p => exists b, is_excluded xd xf p = Ok b)) in E.
    + rewrite Forall_forall in E. exact (E p Hin).
    + intros s a s'. apply visit_decides.
  - eauto.
Qed.

End Exclusion.


(* ================================================================== *)
(** * The exclusion test against the words of the specification *)

Section ExclusionTest.

Lemma list_ascii_app (a b : string) :
  list_ascii_of_string (a ++ b) = (list_ascii_of_string a ++ list_ascii_of_string b)%list.
Proof. induction a as [|c a IH]; simpl; trivial. now rewrite IH. Qed.

Lemma is_prefix_spec (a b : chars) :
  is_prefix a b = true <-> exists post, b = (a ++ post)%list.
Proof.
  revert b. induction a as [|x a IH]; intro b; simpl.
  - split; eauto.
  - destruct b as [|y b].
    + split; [discriminate|]. intros [post H]. discriminate.
    + rewrite andb_true_iff, Ascii.eqb_eq, IH. split.
      * intros [-> [post ->]]. eauto.
      * intros [post H]. inversion H. eauto.
Qed.

Lemma occurs_in_spec (needle hay : chars) :
  occurs_in needle hay = true <-> exists pre post, hay = (pre ++ needle ++ post)%list.
Proof.
  induction hay as [|c hay IH]; simpl; rewrite orb_true_iff, is_prefix_spec.
  - split.
    + intros [[post H]|H]; [|discriminate]. exists [], post. exact H.
    + intros [pre [post H]]. left.
      destruct pre; simpl in H; [eauto|discriminate].
  - rewrite IH. split.
    + intros [[post H]|[pre [post H]]].
      * exists [], post. exact H.
      * exists (c :: pre), post. simpl. now rewrite H.
    + intros [pre [post H]]. destruct pre as [|x pre]; simpl in H.
      * left. eauto.
      * right. inversion H. eauto.
Qed.

(** [d in s] holds exactly when [d] occurs somewhere inside [s]. *)
Lemma str_contains_spec (d s : string) :
  str_contains d s = true <-> exists pre post, s = pre ++ d ++ post.
Proof.
  unfold str_contains. rewrite occurs_in_spec. split.
  - intros [pre [post H]].
    exists (string_of_list_ascii pre), (string_of_list_ascii post).
    rewrite <- (string_of_list_ascii_of_string s), H.
    rewrite <- (string_of_list_ascii_of_string d) at 2.
    rewrite <- (list_ascii_of_string_of_list_ascii pre) at 1.
    rewrite <- (list_ascii_of_string_of_list_ascii post) at 1.
    rewrite <- !list_ascii_app.
    now rewrite !string_of_list_ascii_of_string.
  - intros [pre [post ->]].
    exists (list_ascii_of_string pre), (list_ascii_of_string post).
    now rewrite !list_ascii_app.
Qed.

Lemma split_on_no_sep (sep : ascii) (s cur : chars) :
  existsb (Ascii.eqb sep) s = false ->
  split_on sep cur s = [string_of_list_ascii (rev cur ++ s)].
Proof.
  revert cur. induction s as [|c s IH]; intros cur H; simpl in *.
  - now rewrite app_nil_r.
  - apply orb_false_iff in H. destruct H as [Hc Hs].
    rewrite Ascii.eqb_sym, Hc, IH; trivial.
    simpl. now rewrite <- app_assoc.
Qed.

Lemma parse_parts_single (pat : string) :
  single_component pat = true -> parse_parts pat = (false, [pat]).
Proof.
  unfold single_component, parse_parts, split.
  rewrite !andb_true_iff, !negb_true_iff. intros [[Hs He] Hd].
  rewrite split_on_no_sep; trivial. simpl.
  rewrite string_of_list_ascii_of_string. unfold keeps. rewrite He, Hd. simpl.
  f_equal. destruct pat as [|c pat]; trivial.
  simpl in Hs. apply orb_false_iff in Hs. now rewrite Ascii.eqb_sym.
Qed.

Lemma rev_cparts (is_abs : bool) (names : list string) :
  names <> [] ->
  exists front, rev (cparts is_abs names) = last names "" :: front.
Proof.
  intro Hne. unfold cparts.
  destruct (exists_last Hne) as [front [la ->]].
  rewrite last_last, app_assoc, rev_app_distr. simpl. eauto.
Qed.

(** For a pattern of one component [match] looks at the base name. *)
Lemma path_match_single (p : Path) (pat : string) :
  single_component pat = true -> parts p <> [] ->
  path_match p pat = Ok (fnmatchcase (path_name p) pat).
Proof.
  intros Hs Hne. unfold path_match. rewrite (parse_parts_single _ Hs). simpl.
  destruct (rev_cparts (absolute p) (parts p) Hne) as [front Hrev].
  assert (Hlen : Nat.ltb (List.length (cparts (absolute p) (parts p))) 1 = false).
  { apply Nat.ltb_ge. rewrite <- length_rev, Hrev. simpl. lia. }
  rewrite Hlen, Hrev. simpl. unfold path_name.
  destruct front; now rewrite andb_true_r.
Qed.

Lemma any_match_single (p : Path) (pats : list string) :
  Forall (fun pat => single_component pat = true) pats -> parts p <> [] ->
  any_match p pats = Ok (existsb (fun pat => fnmatchcase (path_name p) pat) pats).
Proof.
  intros Hall Hne. induction Hall as [|pat pats Hpat _ IH]; simpl; trivial.
  rewrite (path_match_single _ _ Hpat Hne). simpl.
  now destruct (fnmatchcase (path_name p) pat).
Qed.

End ExclusionTest.

(** C8, as amended.  For exclude-file patterns of one path component,
    the exclusion test excludes a path exactly when an
    excluded-directory entry occurs somewhere in its string form (any
    substring, not only a whole segment) or its base name matches one
    of the patterns. *)
Theorem exclusion_test_on_base_name (exclude_dirs exclude_files : list string)
  (p : Path) :
  Forall (fun pat => single_component pat = true) exclude_files ->
  parts p <> [] ->
  is_excluded exclude_dirs exclude_files p
  = Ok (is_excluded_spec exclude_dirs exclude_files p)
  /\ (in_excluded_dir exclude_dirs p = true <->
      exists d pre post, In d exclude_dirs /\ path_str p = pre ++ d ++ post).
Proof.
  intros Hall Hne. split.
  - unfold is_excluded, is_excluded_spec, in_excluded_dir.
    destruct (existsb _ exclude_dirs); simpl; trivial.
    now apply any_match_single.
  - unfold in_excluded_dir. rewrite existsb_exists. split.
    + intros [d [Hin Hc]]. apply str_contains_spec in Hc.
      destruct Hc as [pre [post Hc]]. eauto.
    + intros [d [pre [post [Hin Hc]]]]. exists d. split; trivial.
      apply str_contains_spec. eauto.
Qed.

(* ================================================================== *)
(** * The scenario *)

(** C6.  With [a.py] (three non-blank lines and a blank one) and
    [b.py] (no line) under any root, extensions [['.py']] and no
    exclusion, [analyze_repo] returns [{'.py': 3}] and [{'.py': 2}],
    and [format_results] shows [.py] at 100.0% with 1.5 lines per
    file. *)
Theorem scenario_two_python_files (out : Console) (root : Path) :
  analyze_repo out root fs_scenario (Some []) (Some []) (Some [".py"])
  = Ok (mkDict DefaultDictInt [(".py", 3)], mkDict DefaultDictInt [(".py", 2)])
  /\ format_results (mkDict DefaultDictInt [(".py", 3)])
                    (mkDict DefaultDictInt [(".py", 2)])
     = Ok scenario_report
  /\ percentage_of 3 3 = Ok (PFloat (float_of_int 100))
  /\ format_f1 (PFloat (float_of_int 100)) = "100.0"
  /\ (exists avg, avg_lines_of 3 2 = Ok avg /\ format_f1 avg = "1.5").
Proof.
  split; [|split; [|split; [|split]]].
  - rewrite analyze_repo_unfold. cbv zeta. unfold or_default.
    change (forallb (fun ext => valid_glob (pattern_of ext)) [".py"]) with true.
    cbn [for_each].
    change (yielded root fs_scenario (pattern_of ".py"))
      with [joinpath root ["a.py"]; joinpath root ["b.py"]].
    cbn [for_each]. unfold visit. cbn [in_excluded_dir existsb any_match bind].
    unfold count_lines. rewrite !open_text_join.
    reflexivity.
  - vm_compute. reflexivity.
  - vm_compute. reflexivity.
  - vm_compute. reflexivity.
  - eexists. split; vm_compute; reflexivity.
Qed.

(* ================================================================== *)
(** * The report *)

Section Report.

Lemma truediv_zero_division (a b : Z) (msg : string) :
  truediv a b = Raise (ZeroDivisionError msg) -> b = 0.
Proof.
  unfold truediv. destruct (b =? 0) eqn:E.
  - intros _. now apply Z.eqb_eq.
  - destruct (SFdiv prec emax (exact_int a) (exact_int b)); discriminate.
Qed.

Lemma percentage_of_no_zero_division (lines total : Z) (msg : string) :
  percentage_of lines total <> Raise (ZeroDivisionError msg).
Proof.
  unfold percentage_of. destruct (total >? 0) eqn:E; [|discriminate].
  destruct (truediv lines total) eqn:T; simpl; [discriminate|].
  intro H. inversion H. subst e.
  apply truediv_zero_division in T. subst total. discriminate.
Qed.

Lemma avg_lines_of_no_zero_division (lines files : Z) (msg : string) :
  avg_lines_of lines files <> Raise (ZeroDivisionError msg).
Proof.
  unfold avg_lines_of. destruct (files >? 0) eqn:E; [|discriminate].
  destruct (truediv lines files) eqn:T; simpl; [discriminate|].
  intro H. inversion H. subst e.
  apply truediv_zero_division in T. subst files. discriminate.
Qed.

Lemma format_row_no_zero_division (total : Z) (fc : PyDict) (item : string * Z)
  (msg : string) :
  format_row total fc item <> Raise (ZeroDivisionError msg).
Proof.
  destruct item as [ext lines]. unfold format_row.
  destruct (getitem fc ext) as [files|e] eqn:G; simpl.
  - destruct (percentage_of lines total) as [pct|e] eqn:P; simpl.
    + destruct (avg_lines_of lines files) as [avg|e] eqn:A; simpl; [discriminate|].
      intro H. inversion H. subst e.
      exact (avg_lines_of_no_zero_division _ _ _ A).
    + intro H. inversion H. subst e.
      exact (percentage_of_no_zero_division _ _ _ P).
  - unfold getitem in G.
    destruct (find_item ext (items fc)); [discriminate|].
    destruct (kind fc); inversion G. discriminate.
Qed.

Lemma for_each_raise {A S : Type} (body : S -> A -> result S) (l : list A) (e : exn) :
  forall s, for_each body s l = Raise e -> exists s' a, In a l /\ body s' a = Raise e.
Proof.
  induction l as [|a l IH]; intros s H; simpl in H; [discriminate|].
  destruct (body s a) as [s1|e1] eqn:E; simpl in H.
  - destruct (IH _ H) as [s' [a' [Hin Hb]]]. exists s', a'. simpl. auto.
  - inversion H. subst e1. exists s, a. simpl. auto.
Qed.

(** A loop that appends one computed row per item. *)
Lemma for_each_rows {A : Type} (f : A -> result string) (g : A -> string)
  (l : list A) (init : list string) :
  (forall a, In a l -> f a = Ok (g a)) ->
  for_each (fun results a => row <- f a ;; Ok (results ++ [row])%list) init l
  = Ok (init ++ map g l)%list.
Proof.
  revert init. induction l as [|a l IH]; intros init H; simpl.
  - now rewrite app_nil_r.
  - rewrite (H a (or_introl eq_refl)). simpl.
    rewrite IH by (intros; apply H; now right).
    now rewrite <- app_assoc.
Qed.

Lemma sum_values_nonneg (d : items_t) :
  Forall (fun kv => 0 <= snd kv) d -> 0 <= sum_values d.
Proof.
  induction 1 as [|kv d Hkv _ IH]; [reflexivity|].
  rewrite sum_values_cons. lia.
Qed.

Lemma all_zero (d : items_t) :
  Forall (fun kv => 0 <= snd kv) d -> sum_values d = 0 ->
  Forall (fun kv => snd kv = 0) d.
Proof.
  induction 1 as [|kv d Hkv Hd IH]; intro Hs; constructor.
  - rewrite sum_values_cons in Hs. pose proof (sum_values_nonneg d Hd). lia.
  - apply IH. rewrite sum_values_cons in Hs.
    pose proof (sum_values_nonneg d Hd). lia.
Qed.

(** Equal line counts keep their order. *)
Lemma sorted_desc_all_zero (d : items_t) :
  Forall (fun kv => snd kv = 0) d -> sorted_desc d = d.
Proof.
  induction 1 as [|kv d Hkv Hd IH]; simpl; trivial.
  rewrite IH. destruct Hd as [|kv' d' Hkv' _]; simpl; trivial.
  now rewrite Hkv, Hkv'.
Qed.

Lemma avg_of_no_lines (files : Z) :
  exists avg, avg_lines_of 0 files = Ok avg /\ format_f1 avg = "0.0".
Proof.
  unfold avg_lines_of. destruct (files >? 0) eqn:E.
  - destruct files as [|f|f]; try discriminate.
    exists (PFloat (S754_zero false)). split; reflexivity.
  - exists (PInt 0). split; reflexivity.
Qed.

Lemma format_row_zero (fc : PyDict) (ext : string) (files : Z) :
  getitem fc ext = Ok files ->
  format_row 0 fc (ext, 0) = Ok (zero_row fc ext).
Proof.
  intro Hg. unfold format_row, zero_row, files_of. rewrite Hg. simpl.
  destruct (avg_of_no_lines files) as [avg [Ha Hf]].
  rewrite Ha. simpl. now rewrite Hf.
Qed.

End Report.

(** C5.  [format_results] on two empty mappings gives the report with
    both totals 0.  It never fails with a division by zero.  In a row,
    the percentage is shown as zero whenever the total is not positive,
    and the average as zero whenever the file count is not positive.
    When the line counts are non-negative and add up to zero, the whole
    report is the header followed by rows of zeros. *)
Theorem format_results_guards_division :
  (forall k1 k2, format_results (mkDict k1 []) (mkDict k2 []) = Ok empty_report)
  /\ (forall stats file_counts msg,
        format_results stats file_counts <> Raise (ZeroDivisionError msg))
  /\ (forall total file_counts ext lines files avg,
        total <= 0 ->
        getitem file_counts ext = Ok files ->
        avg_lines_of lines files = Ok avg ->
        format_row total file_counts (ext, lines)
        = Ok (row_text (pad_right 8 ext) (pad_left 8 (format_comma lines))
                       "  0.0"
                       (pad_left 5 (format_comma files)) (format_f1 avg)))
  /\ (forall total file_counts ext lines files pct,
        files <= 0 ->
        getitem file_counts ext = Ok files ->
        percentage_of lines total = Ok pct ->
        format_row total file_counts (ext, lines)
        = Ok (row_text (pad_right 8 ext) (pad_left 8 (format_comma lines))
                       (pad_left 5 (format_f1 pct))
                       (pad_left 5 (format_comma files)) "0.0"))
  /\ (forall stats file_counts,
        Forall (fun kv => 0 <= snd kv) (items stats) ->
        sum_values (items stats) = 0 ->
        (forall kv, In kv (items stats) ->
                    exists files, getitem file_counts (fst kv) = Ok files) ->
        format_results stats file_counts
        = Ok (String.concat nl
                (header 0 (sum_values (items file_counts))
                 ++ map (fun kv => zero_row file_counts (fst kv)) (items stats)))).
Proof.
  split; [|split; [|split; [|split]]].
  - intros k1 k2. reflexivity.
  - intros stats fc msg H. unfold format_results in H.
    destruct (for_each _ _ _) as [rows|e] eqn:E; simpl in H; try discriminate.
    inversion H. subst e.
    apply for_each_raise in E. destruct E as [rows [item [_ Hrow]]].
    destruct (format_row _ fc item) eqn:R; simpl in Hrow; try discriminate.
    inversion Hrow. subst e.
    exact (format_row_no_zero_division _ _ _ _ R).
  - intros total fc ext lines files avg Ht Hg Ha.
    unfold format_row. rewrite Hg. simpl.
    unfold percentage_of.
    assert (E : (total >? 0) = false) by (rewrite Z.gtb_ltb; apply Z.ltb_ge; lia).
    rewrite E. simpl. rewrite Ha. reflexivity.
  - intros total fc ext lines files pct Hf Hg Hp.
    unfold format_row. rewrite Hg. simpl. rewrite Hp. simpl.
    unfold avg_lines_of.
    assert (E : (files >? 0) = false) by (rewrite Z.gtb_ltb; apply Z.ltb_ge; lia).
    rewrite E. reflexivity.
  - intros stats fc Hnn Hsum Hkeys.
    pose proof (all_zero _ Hnn Hsum) as Hz.
    unfold format_results. rewrite Hsum, (sorted_desc_all_zero _ Hz).
    rewrite (for_each_rows (format_row 0 fc) (fun kv => zero_row fc (fst kv))).
    + reflexivity.
    + intros [ext lines] Hin. rewrite Forall_forall in Hz.
      pose proof (Hz _ Hin) as Hl. simpl in Hl. subst lines.
      destruct (Hkeys _ Hin) as [files Hg]. simpl in Hg.
      exact (format_row_zero _ _ _ Hg).
Qed.

(* ================================================================== *)
(** * What the glob of a plain extension selects *)

Section Globbing.

Lemma tokens_plain (cs : chars) (fuel : nat) :
  forallb plain_char cs = true -> (List.length cs <= fuel)%nat ->
  tokens fuel cs = map TLit cs.
Proof.
  revert fuel. induction cs as [|c cs IH]; intros fuel Hp Hf.
  - now destruct fuel.
  - destruct fuel as [|fuel]; simpl in Hf; [lia|].
    simpl in Hp. apply andb_true_iff in Hp. destruct Hp as [Hc Hcs].
    unfold plain_char in Hc. apply negb_true_iff in Hc.
    apply orb_false_iff in Hc. destruct Hc as [Hc H3].
    apply orb_false_iff in Hc. destruct Hc as [H1 H2].
    simpl. rewrite H1, H2, H3, IH; trivial. lia.
Qed.

Lemma match_literals (cs s : chars) :
  match_tokens (map TLit cs) s = true <-> s = cs.
Proof.
  revert s. induction cs as [|c cs IH]; intro s; simpl.
  - destruct s; split; congruence.
  - destruct s as [|c' s]; [split; discriminate|].
    rewrite andb_true_iff, Ascii.eqb_eq, IH. split.
    + intros [-> ->]. reflexivity.
    + intro H. inversion H. auto.
Qed.

Lemma match_star_step (ts : list tok) (s : chars) :
  match_tokens (TStar :: ts) s
  = match_tokens ts s
    || match s with
       | [] => false
       | _ :: s' => match_tokens (TStar :: ts) s'
       end.
Proof. destruct s; reflexivity. Qed.

Lemma match_star (ts : list tok) (s : chars) :
  match_tokens (TStar :: ts) s = true <->
  exists pre post, s = (pre ++ post)%list /\ match_tokens ts post = true.
Proof.
  induction s as [|c s IH]; rewrite match_star_step, orb_true_iff.
  - split.
    + intros [H|H]; [|discriminate]. exists [], []. auto.
    + intros [pre [post [H Hm]]]. left.
      symmetry in H. apply app_eq_nil in H. destruct H as [_ ->]. exact Hm.
  - rewrite IH. split.
    + intros [H|[pre [post [-> Hm]]]].
      * exists [], (c :: s). auto.
      * exists (c :: pre), post. auto.
    + intros [pre [post [H Hm]]]. destruct pre as [|x pre]; simpl in H.
      * left. now rewrite H.
      * right. inversion H. eauto.
Qed.

(** For a plain extension, [*ext] matches the names that end with it. *)
Lemma fnmatch_suffix (name ext : string) :
  forallb plain_char (list_ascii_of_string ext) = true ->
  fnmatchcase name ("*" ++ ext) = true <-> exists pre, name = pre ++ ext.
Proof.
  intro Hp. unfold fnmatchcase.
  change (list_ascii_of_string ("*" ++ ext))
    with ("*"%char :: list_ascii_of_string ext).
  change (tokens (List.length ("*"%char :: list_ascii_of_string ext))
                 ("*"%char :: list_ascii_of_string ext))
    with (TStar :: tokens (List.length (list_ascii_of_string ext))
                          (list_ascii_of_string ext)).
  rewrite (tokens_plain _ _ Hp (le_n _)), match_star. split.
  - intros [pre [post [H Hm]]]. apply match_literals in Hm. subst post.
    exists (string_of_list_ascii pre).
    rewrite <- (string_of_list_ascii_of_string name), H.
    rewrite <- (string_of_list_ascii_of_string ext) at 2.
    rewrite <- (list_ascii_of_string_of_list_ascii pre) at 1.
    now rewrite <- list_ascii_app, !string_of_list_ascii_of_string.
  - intros [pre ->].
    exists (list_ascii_of_string pre), (list_ascii_of_string ext).
    split; [apply list_ascii_app|now apply match_literals].
Qed.

Lemma parse_parts_pattern_of (ext : string) :
  existsb (Ascii.eqb slash) (list_ascii_of_string ext) = false ->
  snd (parse_parts (pattern_of ext)) = ["**"; "*" ++ ext].
Proof.
  intro Hs. unfold parse_parts, pattern_of, split. simpl.
  rewrite split_on_no_sep by exact Hs. simpl.
  now rewrite string_of_list_ascii_of_string.
Qed.

Lemma plain_char_not_star (c : ascii) (cs : chars) :
  forallb plain_char (c :: cs) = true -> Ascii.eqb "*"%char c = false.
Proof.
  cbn [forallb]. rewrite andb_true_iff. intros [Hc _].
  unfold plain_char in Hc. apply negb_true_iff in Hc.
  apply orb_false_iff in Hc. destruct Hc as [Hc _].
  apply orb_false_iff in Hc. destruct Hc as [Hc _].
  now rewrite Ascii.eqb_sym.
Qed.

Lemma no_double_star (cs : chars) :
  forallb plain_char cs = true -> occurs_in ["*"%char; "*"%char] cs = false.
Proof.
  induction cs as [|c cs IH]; intro H; [reflexivity|].
  cbn [occurs_in is_prefix]. rewrite (plain_char_not_star c cs H). cbn [andb orb].
  apply IH. cbn [forallb] in H. now apply andb_true_iff in H.
Qed.

(** [Path.glob] accepts the pattern of a plain extension. *)
Lemma valid_glob_plain (ext : string) :
  plain_extension ext = true -> valid_glob (pattern_of ext) = true.
Proof.
  unfold plain_extension. rewrite andb_true_iff, negb_true_iff. intros [Hp Hs].
  unfold valid_glob. rewrite (parse_parts_pattern_of _ Hs).
  cbn [existsb]. rewrite String.eqb_refl. cbn [negb andb orb].
  unfold str_contains.
  change (list_ascii_of_string "**") with ["*"%char; "*"%char].
  change (list_ascii_of_string ("*" ++ ext)) with ("*"%char :: list_ascii_of_string ext).
  cbn [occurs_in is_prefix]. rewrite Ascii.eqb_refl, (no_double_star _ Hp).
  destruct (list_ascii_of_string ext) as [|c cs] eqn:E.
  - now rewrite andb_false_r.
  - rewrite (plain_char_not_star c cs Hp). now rewrite andb_false_r.
Qed.

(** The glob of a plain extension yields the entries, at any depth,
    whose name ends with the extension. *)
Lemma glob_plain_extension (root : Path) (fs : FileSystem) (ext : string) (p : Path) :
  plain_extension ext = true ->
  In p (yielded root fs (pattern_of ext)) <->
  exists rel, In rel (map fst fs) /\ rel <> [] /\ p = joinpath root rel
              /\ exists pre, last rel "" = pre ++ ext.
Proof.
  intro Hplain. rewrite yielded_eq, (valid_glob_plain _ Hplain).
  revert Hplain.
  unfold plain_extension. rewrite andb_true_iff, negb_true_iff. intros [Hp Hs].
  rewrite (parse_parts_pattern_of _ Hs). cbn [selector]. rewrite String.eqb_refl.
  rewrite in_map_iff.
  assert (Hsel : forall rel, matches_tail ["*" ++ ext] rel = true <->
                             rel <> [] /\ exists pre, last rel "" = pre ++ ext).
  { intro rel. unfold matches_tail.
    destruct rel as [|r rel] using rev_list_ind.
    - simpl. split; [discriminate|]. intros [H _]. now contradiction H.
    - clear IHrel. rewrite rev_app_distr, length_app, last_last.
      cbn [rev app zip_fnmatch List.length].
      assert (Hlen : (1 <=? List.length rel + 1)%nat = true)
        by (apply Nat.leb_le; lia).
      assert (Hpos : (List.length rel + 1 =? 0)%nat = false)
        by (apply Nat.eqb_neq; lia).
      assert (Hrest : zip_fnmatch (rev rel) [] = true) by now destruct (rev rel).
      rewrite Hlen, Hpos, Hrest. cbn [negb andb].
      rewrite andb_true_r, (fnmatch_suffix _ _ Hp). split.
      + intro H. split; [now destruct rel|exact H].
      + tauto. }
  split.
  - intros [e [He Hin]]. apply filter_In in Hin. destruct Hin as [Hin Hm].
    apply Hsel in Hm. destruct Hm as [Hne Hsuf].
    exists (fst e). repeat split; auto. now apply in_map.
  - intros [rel [Hin [Hne [-> Hsuf]]]].
    apply in_map_iff in Hin. destruct Hin as [e [<- Hin]].
    exists e. split; trivial. apply filter_In. split; trivial.
    apply Hsel. auto.
Qed.

End Globbing.

(* ================================================================== *)
(** * The theorems at sample inputs *)



(** [a.py] of the scenario: four lines, three of them non-blank. *)
Lemma count_lines_counts_non_blank_witness :
  failure (open_text proj fs_scenario (joinpath proj ["a.py"])) = None
  /\ count_lines utf8_console proj fs_scenario (joinpath proj ["a.py"]) = (Ok 3, []).
Proof.
  split; [reflexivity|].
  exact (proj1 (count_lines_counts_non_blank utf8_console proj fs_scenario
                  (joinpath proj ["a.py"]) eq_refl)).
Defined.

Lemma line_total_witness :
  analyze_repo utf8_console proj fs_scenario (Some []) (Some []) (Some [".py"])
  = Ok (mkDict DefaultDictInt [(".py", 3)], mkDict DefaultDictInt [(".py", 2)])
  /\ NoDup (candidates proj fs_scenario [".py"])
  /\ sum_values [(".py", 3)]
     = zsum (map (lines_of utf8_console proj fs_scenario)
                 (map snd (visits proj fs_scenario [] [] [".py"])))
  /\ sum_values [(".py", 3)]
     = zsum (map (lines_of utf8_console proj fs_scenario)
                 (included_files proj fs_scenario [] [] [".py"])).
Proof.
  assert (Hnd : NoDup (candidates proj fs_scenario [".py"])).
  { vm_compute. constructor.
    - intros [H|[]]. discriminate H.
    - constructor; [intros []|constructor]. }
  pose proof (line_total_is_sum_over_visits utf8_console proj fs_scenario
                (Some []) (Some []) (Some [".py"]) _ _ eq_refl) as H.
  cbv zeta in H. destruct H as [H1 H2].
  split; [reflexivity|]. split; [exact Hnd|]. split; [exact H1|exact (H2 Hnd)].
Defined.

(** Two entries of the extension list that match the same files: the
    line total is twice the lines of the files. *)
Lemma line_total_counterexample :
  ~ (forall out root fs xd xf exts stats file_counts,
       analyze_repo out root fs (Some xd) (Some xf) (Some exts) = Ok (stats, file_counts) ->
       sum_values (items stats)
       = zsum (map (lines_of out root fs) (included_files root fs xd xf exts))).
Proof.
  intro H.
  specialize (H utf8_console proj fs_scenario [] [] [".py"; "py"] _ _ eq_refl).
  vm_compute in H. discriminate H.
Qed.

Lemma counters_are_tally_witness :
  analyze_repo utf8_console proj fs_scenario (Some []) (Some []) (Some [".py"])
  = Ok (mkDict DefaultDictInt [(".py", 3)], mkDict DefaultDictInt [(".py", 2)])
  /\ NoDup (candidates proj fs_scenario [".py"])
  /\ [(".py", 3)]
     = tally (line_adds utf8_console proj fs_scenario (visits proj fs_scenario [] [] [".py"]))
  /\ [(".py", 2)] = tally (file_adds (visits proj fs_scenario [] [] [".py"]))
  /\ NoDup (map snd (visits proj fs_scenario [] [] [".py"])).
Proof.
  assert (Hnd : NoDup (candidates proj fs_scenario [".py"])).
  { vm_compute. constructor.
    - intros [H|[]]. discriminate H.
    - constructor; [intros []|constructor]. }
  pose proof (counters_are_tally_of_visits utf8_console proj fs_scenario
                (Some []) (Some []) (Some [".py"]) _ _ eq_refl) as H.
  cbv zeta in H. destruct H as [H1 [H2 H3]].
  split; [reflexivity|]. split; [exact Hnd|].
  split; [exact H1|]. split; [exact H2|exact (H3 Hnd)].
Defined.

(** With the entries [.py] and [py] every file lands in two buckets;
    with [.py] twice every file is counted twice in one bucket.  The
    file counts then add up to more than the number of files. *)
Lemma single_bucket_counterexample :
  analyze_repo utf8_console proj fs_scenario (Some []) (Some []) (Some [".py"; "py"])
  = Ok (mkDict DefaultDictInt [(".py", 3); ("py", 3)],
        mkDict DefaultDictInt [(".py", 2); ("py", 2)])
  /\ analyze_repo utf8_console proj fs_scenario (Some []) (Some []) (Some [".py"; ".py"])
     = Ok (mkDict DefaultDictInt [(".py", 6)], mkDict DefaultDictInt [(".py", 4)])
  /\ included_files proj fs_scenario [] [] [".py"; "py"]
     = [joinpath proj ["a.py"]; joinpath proj ["b.py"]]
  /\ ~ (forall out root fs xd xf exts stats file_counts,
          analyze_repo out root fs (Some xd) (Some xf) (Some exts) = Ok (stats, file_counts) ->
          sum_values (items file_counts)
          = Z.of_nat (List.length (included_files root fs xd xf exts))).
Proof.
  split; [reflexivity|]. split; [reflexivity|]. split; [reflexivity|].
  intro H.
  specialize (H utf8_console proj fs_scenario [] [] [".py"; "py"] _ _ eq_refl).
  vm_compute in H. discriminate H.
Qed.


(** Excluding [build] excludes what lies in [my-build-tools]. *)
Lemma exclusion_test_witness :
  Forall (fun pat => single_component pat = true) default_exclude_files
  /\ parts (joinpath proj ["my-build-tools"; "run.py"]) <> []
  /\ is_excluded ["build"] default_exclude_files
                 (joinpath proj ["my-build-tools"; "run.py"])
     = Ok true
  /\ is_excluded_spec ["build"] default_exclude_files
                      (joinpath proj ["my-build-tools"; "run.py"])
     = true.
Proof.
  assert (Hall : Forall (fun pat => single_component pat = true) default_exclude_files)
    by (repeat constructor).
  assert (Hne : parts (joinpath proj ["my-build-tools"; "run.py"]) <> [])
    by discriminate.
  split; [exact Hall|]. split; [exact Hne|]. split; [|reflexivity].
  exact (proj1 (exclusion_test_on_base_name ["build"] default_exclude_files
                  (joinpath proj ["my-build-tools"; "run.py"]) Hall Hne)).
Defined.

(** A pattern of two components is compared with the last two
    components of the path, not with the base name; a pattern without
    component makes the test raise. *)
Lemma exclusion_test_counterexample :
  is_excluded [] ["src/*.py"] (joinpath proj ["src"; "a.py"]) = Ok true
  /\ is_excluded_spec [] ["src/*.py"] (joinpath proj ["src"; "a.py"]) = false
  /\ is_excluded [] [""] (joinpath proj ["src"; "a.py"])
     = Raise (ValueError "empty pattern")
  /\ ~ (forall xd xf p, is_excluded xd xf p = Ok (is_excluded_spec xd xf p)).
Proof.
  split; [reflexivity|]. split; [reflexivity|]. split; [reflexivity|].
  intro H. specialize (H [] ["src/*.py"] (joinpath proj ["src"; "a.py"])).
  vm_compute in H. discriminate H.
Qed.

(** Three entries end in [.py]: a binary file, a directory and a text
    file of one line.  All three count as files. *)
Lemma decode_failures_witness :
  analyze_repo utf8_console proj fs_unreadable None None (Some [".py"])
  = Ok (mkDict DefaultDictInt [(".py", 1)], mkDict DefaultDictInt [(".py", 3)])
  /\ count_of [(".py", 3)] ".py"
     = Z.of_nat (List.length (visited_for proj fs_unreadable default_exclude_dirs
                                          default_exclude_files [".py"] ".py"))
  /\ count_of [(".py", 1)] ".py"
     = zsum (map (lines_of utf8_console proj fs_unreadable)
                 (filter (fun p => negb (decode_fails proj fs_unreadable p))
                         (visited_for proj fs_unreadable default_exclude_dirs
                                      default_exclude_files [".py"] ".py")))
  /\ decode_fails proj fs_unreadable (joinpath proj ["logo.py"]) = true
  /\ visit utf8_console proj fs_unreadable default_exclude_dirs default_exclude_files ".py"
           ([(".py", 7)], [(".py", 2)]) (joinpath proj ["logo.py"])
     = Ok ([(".py", 7 + 0)], [(".py", 2 + 1)])
  /\ format_row 1 (mkDict DefaultDictInt [(".py", 3)]) (".py", 1)
     = Ok ".py             1 lines (100.0%) in     3 files (avg: 0.3 lines/file)".
Proof.
  pose proof (decode_failures_count_as_files utf8_console proj fs_unreadable None None
                (Some [".py"]) _ _ eq_refl) as H.
  cbv zeta in H. destruct (H ".py") as [H1 [H2 H3]].
  split; [reflexivity|]. split; [exact H1|]. split; [exact H2|].
  split; [reflexivity|]. split; [|reflexivity].
  exact (H3 ([(".py", 7)], [(".py", 2)]) (joinpath proj ["logo.py"]) eq_refl eq_refl).
Defined.

(** Four files match an extension, two are excluded. *)
Lemma total_files_witness :
  analyze_repo utf8_console proj fs_web None None None
  = Ok (mkDict DefaultDictInt [(".py", 1); (".js", 2)],
        mkDict DefaultDictInt [(".py", 1); (".js", 1)])
  /\ get_total_files proj fs_web default_include_extensions = Ok 4
  /\ exists total_files,
       get_total_files proj fs_web default_include_extensions = Ok total_files
       /\ sum_values [(".py", 1); (".js", 1)] <= total_files.
Proof.
  split; [reflexivity|]. split; [reflexivity|].
  exact (total_files_bounds_processed utf8_console proj fs_web None None None _ _
           eq_refl).
Defined.

(** Rows of zeros. *)
Lemma format_results_guards_witness :
  format_row 0 (mkDict DefaultDictInt [(".py", 2)]) (".py", 0)
  = Ok ".py             0 lines (  0.0%) in     2 files (avg: 0.0 lines/file)"
  /\ format_row 7 (mkDict DefaultDictInt []) (".py", 7)
     = Ok ".py             7 lines (100.0%) in     0 files (avg: 0.0 lines/file)"
  /\ format_results (mkDict DefaultDictInt [(".py", 0); (".js", 0)])
                    (mkDict DefaultDictInt [(".py", 2); (".js", 1)])
     = Ok (String.concat nl
             [ nl ++ "Lines of Code Analysis Results";
               "==============================";
               "Total Lines: 0";
               "Total Files: 3" ++ nl;
               "Breakdown by Language:";
               "--------------------";
               ".py             0 lines (  0.0%) in     2 files (avg: 0.0 lines/file)";
               ".js             0 lines (  0.0%) in     1 files (avg: 0.0 lines/file)" ]).
Proof.
  destruct format_results_guards_division as [_ [_ [H3 [H4 H5]]]].
  split; [|split].
  - refine (H3 0 (mkDict DefaultDictInt [(".py", 2)]) ".py" 0 2 _ _ eq_refl eq_refl).
    + lia.
  - refine (H4 7 (mkDict DefaultDictInt []) ".py" 7 0 _ _ eq_refl eq_refl).
    + lia.
  - refine (H5 (mkDict DefaultDictInt [(".py", 0); (".js", 0)])
               (mkDict DefaultDictInt [(".py", 2); (".js", 1)]) _ eq_refl _).
    + repeat constructor; simpl; lia.
    + intros kv [<-|[<-|[]]]; eexists; reflexivity.
Defined.

(* ================================================================== *)
(** * Further properties of the scan *)

Section ScanInvariants.

Lemma keys_iadd (d : items_t) (k : string) (v : Z) :
  map fst (iadd d k v)
  = if existsb (String.eqb k) (map fst d) then map fst d
    else (map fst d ++ [k])%list.
Proof.
  induction d as [|[k' v'] d IH]; simpl; trivial.
  rewrite (String.eqb_sym k k').
  destruct (String.eqb k' k); simpl; trivial.
  rewrite IH. now destruct (existsb (String.eqb k) (map fst d)).
Qed.

Lemma existsb_eqb_In (k : string) (l : list string) :
  existsb (String.eqb k) l = true <-> In k l.
Proof.
  rewrite existsb_exists. split.
  - intros [x [Hin Hx]]. apply String.eqb_eq in Hx. now subst.
  - intro H. exists k. split; trivial. apply String.eqb_refl.
Qed.

Lemma first_occurrences_seen (seen seen' l : list string) :
  (forall k, In k seen <-> In k seen') ->
  first_occurrences seen l = first_occurrences seen' l.
Proof.
  revert seen seen'. induction l as [|k l IH]; intros seen seen' H; simpl; trivial.
  assert (E : existsb (String.eqb k) seen = existsb (String.eqb k) seen').
  { apply eq_true_iff_eq. rewrite !existsb_eqb_In. apply H. }
  rewrite E. destruct (existsb (String.eqb k) seen').
  - now apply IH.
  - f_equal. apply IH. intro x. simpl. rewrite H. tauto.
Qed.

(** The keys of a tally, from any starting dictionary. *)
Lemma keys_fold_iadd (adds : list (string * Z)) (d : items_t) :
  map fst (fold_left (fun d kv => iadd d (fst kv) (snd kv)) adds d)
  = (map fst d ++ first_occurrences (map fst d) (map fst adds))%list.
Proof.
  revert d. induction adds as [|[k v] adds IH]; intro d; simpl.
  - now rewrite app_nil_r.
  - rewrite IH, keys_iadd.
    destruct (existsb (String.eqb k) (map fst d)) eqn:E; trivial.
    rewrite <- app_assoc. simpl. f_equal. f_equal.
    apply first_occurrences_seen. intro x.
    rewrite in_app_iff. simpl. tauto.
Qed.

Lemma keys_tally (adds : list (string * Z)) :
  map fst (tally adds) = first_occurrences [] (map fst adds).
Proof. unfold tally. now rewrite keys_fold_iadd. Qed.

Lemma first_occurrences_In (l seen : list string) (k : string) :
  In k (first_occurrences seen l) <-> In k l /\ ~ In k seen.
Proof.
  revert seen. induction l as [|x l IH]; intro seen; simpl; [tauto|].
  destruct (existsb (String.eqb x) seen) eqn:E.
  - apply existsb_eqb_In in E. rewrite IH. split.
    + tauto.
    + intros [[->|H] Hn]; tauto.
  - assert (Hx : ~ In x seen).
    { intro H. apply existsb_eqb_In in H. congruence. }
    simpl. rewrite IH. simpl. split.
    + intros [->|[H Hn]]; [tauto|]. split; [tauto|]. intro; apply Hn; tauto.
    + intros [[->|H] Hn]; [tauto|].
      destruct (String.string_dec x k) as [->|Hne]; [tauto|].
      right. split; trivial. intros [?|?]; tauto.
Qed.

Lemma first_occurrences_NoDup (l seen : list string) :
  NoDup (first_occurrences seen l).
Proof.
  revert seen. induction l as [|x l IH]; intro seen; simpl; [constructor|].
  destruct (existsb (String.eqb x) seen); [apply IH|].
  constructor; [|apply IH].
  rewrite first_occurrences_In. simpl. tauto.
Qed.

Lemma fold_iadd_lower_bound (lo : Z) (adds : list (string * Z)) (d : items_t) :
  0 <= lo ->
  Forall (fun kv => lo <= snd kv) adds ->
  Forall (fun kv => lo <= snd kv) d ->
  Forall (fun kv => lo <= snd kv)
         (fold_left (fun d kv => iadd d (fst kv) (snd kv)) adds d).
Proof.
  intros Hlo Hadds. revert d.
  induction Hadds as [|[k v] adds Hv _ IH]; intros d Hd; simpl; trivial.
  apply IH. clear IH. simpl in Hv.
  induction Hd as [|[k' v'] d Hv' Hd IHd]; simpl.
  - constructor; [simpl; lia|constructor].
  - destruct (String.eqb k' k); constructor; simpl in *; trivial; lia.
Qed.

Lemma lines_of_bounds (out : Console) (root : Path) (fs : FileSystem) (p : Path) :
  0 <= lines_of out root fs p
       <= Z.of_nat (List.length (yields (open_text root fs p))).
Proof.
  unfold lines_of.
  destruct (failure (open_text root fs p)) as [e|] eqn:E.
  - rewrite (count_lines_failure out root fs p e E).
    destruct (is_UnicodeDecodeError e); [simpl; lia|].
    destruct (can_encode out (warning p e)); simpl; lia.
  - unfold count_lines. rewrite E, sum_gen_eof. simpl. split; [lia|].
    apply Nat2Z.inj_le, filter_length_le.
Qed.

End ScanInvariants.

(** X1.  The two dictionaries a scan returns have the same keys in
    the same order, no key twice; every key has counted at least one
    file and a line count that is not negative. *)
Theorem scan_dictionaries_agree (out : Console) (root : Path) (fs : FileSystem)
  (exclude_dirs exclude_files include_extensions : option (list string))
  (stats file_counts : PyDict) :
  analyze_repo out root fs exclude_dirs exclude_files include_extensions
  = Ok (stats, file_counts) ->
  map fst (items stats) = map fst (items file_counts)
  /\ NoDup (map fst (items stats))
  /\ Forall (fun kv => 1 <= snd kv) (items file_counts)
  /\ Forall (fun kv => 0 <= snd kv) (items stats)
  /\ kind stats = DefaultDictInt /\ kind file_counts = DefaultDictInt.
Proof.
  intro H. destruct (analyze_repo_tally _ _ _ _ _ _ _ _ H) as [Hs Hf].
  subst stats file_counts. simpl.
  rewrite !keys_tally. unfold line_adds, file_adds. rewrite !map_map. simpl.
  split; [reflexivity|]. split; [apply first_occurrences_NoDup|].
  split; [|split; [|split; reflexivity]].
  - apply fold_iadd_lower_bound; [lia| |constructor].
    apply Forall_forall. intros kv Hin. apply in_map_iff in Hin.
    destruct Hin as [v [<- _]]. simpl. lia.
  - apply fold_iadd_lower_bound; [lia| |constructor].
    apply Forall_forall. intros kv Hin. apply in_map_iff in Hin.
    destruct Hin as [v [<- _]]. simpl. apply lines_of_bounds.
Qed.

(** X2.  An extension is a key of the result exactly when the scan
    counted a file for it: an entry of the list that yields nothing, or
    only excluded paths, is absent rather than present with 0.  The
    keys stand in the order in which the loops first count a file for
    them. *)
Theorem scan_keys_are_counted_extensions (out : Console) (root : Path) (fs : FileSystem)
  (exclude_dirs exclude_files include_extensions : option (list string))
  (stats file_counts : PyDict) :
  analyze_repo out root fs exclude_dirs exclude_files include_extensions
  = Ok (stats, file_counts) ->
  let xd := or_default exclude_dirs default_exclude_dirs in
  let xf := or_default exclude_files default_exclude_files in
  let exts := or_default include_extensions default_include_extensions in
  map fst (items stats)
  = first_occurrences [] (map fst (visits root fs xd xf exts))
  /\ (forall ext, In ext (map fst (items stats)) <->
                  In ext exts /\ kept root fs xd xf ext <> []).
Proof.
  intros H xd xf exts.
  destruct (analyze_repo_tally _ _ _ _ _ _ _ _ H) as [Hs _].
  fold xd xf exts in Hs. subst stats. simpl.
  rewrite keys_tally. unfold line_adds. rewrite map_map. simpl.
  split; [reflexivity|].
  intro ext. rewrite first_occurrences_In. unfold visits.
  rewrite in_map_iff. split.
  - intros [[[e p] [He Hin]] _]. simpl in He. subst e.
    apply in_flat_map in Hin. destruct Hin as [e [He Hin]].
    apply in_map_iff in Hin. destruct Hin as [q [Hq Hin]].
    inversion Hq. subst e q. split; trivial.
    intro Hnil. rewrite Hnil in Hin. exact Hin.
  - intros [Hin Hne]. split; [|tauto].
    destruct (kept root fs xd xf ext) as [|p ps] eqn:E; [congruence|].
    exists (ext, p). split; trivial.
    apply in_flat_map. exists ext. split; trivial.
    rewrite E. simpl. auto.
Qed.

Section ScanEdges.














Lemma for_each_total_in {A S : Type} (body : S -> A -> result S) (l : list A) :
  (forall s a, In a l -> exists s', body s a = Ok s') ->
  forall s, exists s', for_each body s l = Ok s'.
Proof.
  induction l as [|a l IH]; intros H s; simpl; [eauto|].
  destruct (H s a (or_introl eq_refl)) as [s1 H1]. rewrite H1. simpl.
  apply IH. intros; apply H; now right.
Qed.

Lemma visit_decided (out : Console) (root : Path) (fs : FileSystem) (xd xf : list string)
  (ext : string) (c : counters) (p : Path) (b : bool) :
  is_excluded xd xf p = Ok b ->
  (b = false -> can_warn out root fs p = true) ->
  exists c', visit out root fs xd xf ext c p = Ok c'.
Proof.
  unfold is_excluded, visit.
  destruct (in_excluded_dir xd p); [eauto|].
  intros H Hw. rewrite H. simpl. destruct b; [eauto|].
  rewrite count_lines_returns by auto. simpl. eauto.
Qed.

(** The loops run to their end when the exclusion of every yielded
    path is decided and the warning of every path counted can be
    printed. *)
Lemma scan_total (out : Console) (root : Path) (fs : FileSystem) (xd xf exts : list string) :
  (forall p, In p (candidates root fs exts) ->
             exists b, is_excluded xd xf p = Ok b
                       /\ (b = false -> can_warn out root fs p = true)) ->
  forall c, exists c',
    for_each (fun c ext =>
                for_each (visit out root fs xd xf ext) c (yielded root fs (pattern_of ext)))
             c exts = Ok c'.
Proof.
  unfold candidates. intros H c. apply for_each_total_in.
  intros s ext Hext. apply for_each_total_in.
  intros s' p Hp.
  destruct (H p) as [b [Hb Hw]].
  - apply in_flat_map. eauto.
  - eapply visit_decided; eauto.
Qed.

Lemma visit_warned (out : Console) (root : Path) (fs : FileSystem) (xd xf : list string)
  (ext : string) (c c' : counters) (p : Path) :
  visit out root fs xd xf ext c p = Ok c' ->
  is_excluded xd xf p = Ok false -> can_warn out root fs p = true.
Proof.
  unfold visit, is_excluded.
  destruct (in_excluded_dir xd p); [discriminate|].
  intros H Hx. rewrite Hx in H. simpl in H.
  destruct (fst (count_lines out root fs p)) as [n|e] eqn:C; simpl in H;
    [|discriminate].
  destruct (can_warn out root fs p) eqn:W; trivial.
  unfold can_warn in W.
  destruct (failure (open_text root fs p)) as [e0|] eqn:E; [|discriminate].
  rewrite (count_lines_failure out root fs p e0 E) in C.
  apply orb_false_iff in W. destruct W as [W1 W2].
  rewrite W1, W2 in C. discriminate.
Qed.

(** A scan that returns could print the warning of every path it
    counted. *)
Lemma scan_warned (out : Console) (root : Path) (fs : FileSystem) (xd xf exts : list string)
  (c c' : counters) :
  for_each (fun c ext =>
              for_each (visit out root fs xd xf ext) c (yielded root fs (pattern_of ext)))
           c exts = Ok c' ->
  forall p, In p (candidates root fs exts) ->
            is_excluded xd xf p = Ok false -> can_warn out root fs p = true.
Proof.
  revert c. unfold candidates.
  induction exts as [|ext exts IH]; intros c H p Hin; simpl in *; [tauto|].
  destruct (for_each (visit out root fs xd xf ext) c _) as [c1|e] eqn:E;
    simpl in H; try discriminate.
  apply in_app_or in Hin. destruct Hin as [Hin|Hin].
  - apply (for_each_all _ (fun p => is_excluded xd xf p = Ok false ->
                                    can_warn out root fs p = true)) in E.
    + rewrite Forall_forall in E. exact (E p Hin).
    + intros s a s'. apply visit_warned.
  - eauto.
Qed.





End ScanEdges.





(* ================================================================== *)
(** * The range of the divisions *)

Section FloatRange.

Lemma digits2_pos_size (p : positive) : digits2_pos p = Pos.size p.
Proof. induction p as [p IH|p IH|]; simpl; now rewrite ?IH. Qed.

(** The number of binary digits is one more than the logarithm. *)
Lemma Zdigits2_log2 (m : Z) : 0 < m -> Zdigits2 m = Z.log2 m + 1.
Proof.
  destruct m as [|p|p]; try lia. intros _. simpl.
  rewrite digits2_pos_size. destruct p; simpl; lia.
Qed.

Lemma Zdigits2_nonneg (m : Z) : 0 <= Zdigits2 m.
Proof. destruct m; simpl; lia. Qed.

Lemma Zdigits2_upper (m k : Z) : 0 <= m < 2 ^ k -> 0 <= k -> Zdigits2 m <= k.
Proof.
  intros [H0 H1] Hk. destruct (Z.eq_dec m 0) as [->|Hm]; [simpl; lia|].
  rewrite Zdigits2_log2 by lia.
  apply Z.log2_lt_pow2 in H1; lia.
Qed.

Lemma Zdigits2_lower (m : Z) : 0 < m -> 2 ^ (Zdigits2 m - 1) <= m.
Proof.
  intro H. rewrite Zdigits2_log2 by lia.
  replace (Z.log2 m + 1 - 1) with (Z.log2 m) by lia.
  apply Z.log2_spec. lia.
Qed.

Lemma Zdigits2_succ (m : Z) : 0 <= m -> Zdigits2 (m + 1) <= Zdigits2 m + 1.
Proof.
  intro H. destruct (Z.eq_dec m 0) as [->|Hm]; [simpl; lia|].
  apply Zdigits2_upper; [|pose proof (Zdigits2_nonneg m); lia].
  split; [lia|].
  rewrite Zdigits2_log2 by lia.
  pose proof (Z.log2_spec m ltac:(lia)) as [_ Hs].
  replace (Z.succ (Z.log2 m)) with (Z.log2 m + 1) in Hs by lia.
  rewrite Z.pow_add_r by (pose proof (Z.log2_nonneg m); lia).
  lia.
Qed.

Lemma Zdigits2_shiftr (m n : Z) :
  0 <= m -> 0 <= n -> Zdigits2 (Z.shiftr m n) <= Z.max 0 (Zdigits2 m - n).
Proof.
  intros Hm Hn.
  assert (Hs : 0 <= Z.shiftr m n) by now apply Z.shiftr_nonneg.
  destruct (Z.eq_dec (Z.shiftr m n) 0) as [E|E]; [rewrite E; simpl; lia|].
  assert (Hpos : 0 < m).
  { destruct (Z.eq_dec m 0) as [->|]; [|lia]. now rewrite Z.shiftr_0_l in E. }
  rewrite (Zdigits2_log2 (Z.shiftr m n)) by lia.
  rewrite Z.log2_shiftr by lia. rewrite (Zdigits2_log2 m) by lia.
  assert (Hlog : n <= Z.log2 m).
  { destruct (Z.le_gt_cases n (Z.log2 m)); trivial.
    exfalso. apply E. apply Z.shiftr_eq_0; lia. }
  lia.
Qed.

Lemma shr_1_div2 (mrs : shr_record) :
  0 <= shr_m mrs -> shr_m (shr_1 mrs) = Z.div2 (shr_m mrs).
Proof.
  destruct mrs as [m r s]. simpl. intro H.
  destruct m as [|[p|p|]|p]; simpl; trivial; lia.
Qed.

Lemma iter_shr_1 (p : positive) (mrs : shr_record) :
  0 <= shr_m mrs ->
  shr_m (iter_pos shr_1 p mrs) = Z.shiftr (shr_m mrs) (Zpos p).
Proof.
  revert mrs. induction p as [p IH|p IH|]; intros mrs H; simpl.
  - assert (H1 : 0 <= shr_m (shr_1 mrs)).
    { rewrite shr_1_div2 by trivial. now apply Z.div2_nonneg. }
    assert (H2 : 0 <= shr_m (iter_pos shr_1 p (shr_1 mrs))).
    { rewrite IH by trivial. now apply Z.shiftr_nonneg. }
    rewrite IH, IH, shr_1_div2 by trivial.
    rewrite Z.div2_spec, !Z.shiftr_shiftr by lia.
    f_equal. lia.
  - assert (H2 : 0 <= shr_m (iter_pos shr_1 p mrs)).
    { rewrite IH by trivial. now apply Z.shiftr_nonneg. }
    rewrite IH, IH by trivial.
    rewrite Z.shiftr_shiftr by lia. f_equal. lia.
  - rewrite shr_1_div2 by trivial. apply Z.div2_spec.
Qed.

Lemma fexp_value (e : Z) : fexp prec emax e = Z.max (e - 53) (-1074).
Proof. reflexivity. Qed.

Lemma shr_m_of_loc (m : Z) (l : location) : shr_m (shr_record_of_loc m l) = m.
Proof. destruct l as [|[| |]]; reflexivity. Qed.

(** One normalisation step: the mantissa stays non-negative, the
    exponent becomes the larger of the old one and the canonical one,
    and the magnitude (digits plus exponent) does not grow past it. *)
Lemma shr_fexp_range (m e : Z) (l : location) :
  0 <= m ->
  0 <= shr_m (fst (shr_fexp prec emax m e l))
  /\ snd (shr_fexp prec emax m e l) = Z.max e (fexp prec emax (Zdigits2 m + e))
  /\ Zdigits2 (shr_m (fst (shr_fexp prec emax m e l))) + snd (shr_fexp prec emax m e l)
     <= Z.max (Zdigits2 m + e) (snd (shr_fexp prec emax m e l)).
Proof.
  intro Hm. unfold shr_fexp, shr.
  set (f := fexp prec emax (Zdigits2 m + e)).
  destruct (f - e) as [|p|p] eqn:E; simpl fst; simpl snd.
  - rewrite shr_m_of_loc. repeat split; lia.
  - assert (Hr : 0 <= shr_m (shr_record_of_loc m l)) by now rewrite shr_m_of_loc.
    rewrite (iter_shr_1 p _ Hr), shr_m_of_loc.
    split; [now apply Z.shiftr_nonneg|]. split; [lia|].
    pose proof (Zdigits2_shiftr m (Zpos p) Hm ltac:(lia)). lia.
  - rewrite shr_m_of_loc. repeat split; lia.
Qed.

Lemma round_nearest_even_range (m : Z) (l : location) :
  0 <= m ->
  0 <= round_nearest_even m l
  /\ Zdigits2 (round_nearest_even m l) <= Zdigits2 m + 1.
Proof.
  intro Hm. pose proof (Zdigits2_succ m Hm) as Hs.
  unfold round_nearest_even.
  destruct l as [|[| |]]; try destruct (Z.even m); split; lia.
Qed.

(** Rounding a value below 2^1023 with a moderate exponent does not
    overflow. *)
Lemma binary_round_aux_finite (sx : bool) (mx ex : Z) (lx : location) (s : bool) :
  0 <= mx -> Zdigits2 mx + ex <= 1023 -> ex <= 971 ->
  binary_round_aux prec emax sx mx ex lx <> S754_infinity s.
Proof.
  intros Hm Hd He. unfold binary_round_aux.
  pose proof (shr_fexp_range mx ex lx Hm) as [H1 [H2 H3]].
  destruct (shr_fexp prec emax mx ex lx) as [mrs1 e1]. simpl fst in *. simpl snd in *.
  pose proof (round_nearest_even_range (shr_m mrs1) (loc_of_shr_record mrs1) H1)
    as [Hr1 Hr2].
  pose proof (shr_fexp_range (round_nearest_even (shr_m mrs1) (loc_of_shr_record mrs1))
                e1 loc_Exact Hr1) as [H4 [H5 H6]].
  destruct (shr_fexp prec emax _ e1 loc_Exact) as [mrs2 e2].
  simpl fst in *. simpl snd in *.
  rewrite fexp_value in H2, H5.
  destruct (shr_m mrs2) as [|p|p]; try discriminate.
  assert (Hle : e2 <= 971) by lia.
  apply Z.leb_le in Hle.
  change (emax - prec) with 971. rewrite Hle. discriminate.
Qed.

Lemma exact_int_finite (z : Z) :
  z <> 0 -> exists p, exact_int z = S754_finite (z <? 0) p 0 /\ Zpos p = Z.abs z.
Proof.
  destruct z as [|p|p]; [congruence| |]; intros _; exists p; split; reflexivity.
Qed.

(** [a / b] does not overflow when [a] is below [b] times 2^1000 in
    magnitude. *)
Lemma truediv_returns (a b : Z) :
  b <> 0 -> Z.abs a <= Z.abs b * 2 ^ 1000 ->
  exists q, truediv a b = Ok q.
Proof.
  intros Hb Hab. unfold truediv.
  destruct (b =? 0) eqn:E; [apply Z.eqb_eq in E; congruence|].
  destruct (Z.eq_dec a 0) as [->|Ha].
  { destruct (exact_int_finite b Hb) as [pb [-> _]]. simpl. eauto. }
  destruct (exact_int_finite a Ha) as [pa [-> Hpa]].
  destruct (exact_int_finite b Hb) as [pb [-> Hpb]].
  assert (Hfin : forall s, SFdiv prec emax (S754_finite (a <? 0) pa 0)
                                 (S754_finite (b <? 0) pb 0) <> S754_infinity s).
  { intro s. unfold SFdiv, SFdiv_core_binary.
    set (d1 := Zdigits2 (Zpos pa)). set (d2 := Zdigits2 (Zpos pb)).
    set (e' := Z.min (fexp prec emax (d1 + 0 - (d2 + 0))) (0 - 0)).
    assert (He' : e' <= 0) by (unfold e'; lia).
    assert (Hs : 0 - 0 - e' = - e') by lia. rewrite Hs.
    set (m' := match - e' with
               | 0 => Zpos pa
               | Zpos _ => Z.shiftl (Zpos pa) (- e')
               | Zneg _ => 0
               end).
    assert (Hm' : m' = Zpos pa * 2 ^ (- e')).
    { unfold m'. destruct (- e') as [|p|p] eqn:En.
      - rewrite Z.pow_0_r. lia.
      - rewrite Z.shiftl_mul_pow2 by lia. reflexivity.
      - lia. }
    pose proof (Z_div_mod m' (Zpos pb) ltac:(lia)) as Hdiv.
    destruct (Z.div_eucl m' (Zpos pb)) as [q r]. destruct Hdiv as [Hq Hr].
    assert (Hq0 : 0 <= q).
    { assert (0 <= m') by (rewrite Hm'; apply Z.mul_nonneg_nonneg; [lia|apply Z.pow_nonneg; lia]).
      nia. }
    apply binary_round_aux_finite; trivial; [|lia].
    (* the magnitude of the quotient *)
    assert (Hd1 : 1 <= d1) by (unfold d1; simpl; lia).
    assert (Hd2 : 1 <= d2) by (unfold d2; simpl; lia).
    assert (Hlo2 : 2 ^ (d2 - 1) <= Zpos pb) by (apply Zdigits2_lower; lia).
    assert (Hlo1 : 2 ^ (d1 - 1) <= Zpos pa) by (apply Zdigits2_lower; lia).
    assert (Hdd : d1 <= d2 + 1001).
    { (* 2^(d1-1) <= |a| <= |b| 2^1000 < 2^(d2+1000) *)
      assert (Hup2 : Zpos pb < 2 ^ d2).
      { unfold d2. rewrite Zdigits2_log2 by lia.
        pose proof (Z.log2_spec (Zpos pb) ltac:(lia)). lia. }
      assert (Hlt : 2 ^ (d1 - 1) < 2 ^ (d2 + 1000)).
      { rewrite Z.pow_add_r by lia. lia. }
      apply Z.pow_lt_mono_r_iff in Hlt; lia. }
    destruct (Z.eq_dec q 0) as [->|Hqn]; [simpl; lia|].
    assert (Hqm : q * 2 ^ (d2 - 1) < 2 ^ (d1 + - e')).
    { assert (Hup1 : Zpos pa < 2 ^ d1).
      { unfold d1. rewrite Zdigits2_log2 by lia.
        pose proof (Z.log2_spec (Zpos pa) ltac:(lia)). lia. }
      rewrite Z.pow_add_r by lia.
      assert (0 < 2 ^ (- e')) by (apply Z.pow_pos_nonneg; lia).
      nia. }
    assert (Hk : 0 <= d1 + - e' - (d2 - 1)).
    { destruct (Z.le_gt_cases 0 (d1 + - e' - (d2 - 1))); trivial.
      exfalso.
      assert (2 ^ (d1 + - e') < 2 ^ (d2 - 1)) by (apply Z.pow_lt_mono_r; lia).
      assert (0 < 2 ^ (d2 - 1)) by (apply Z.pow_pos_nonneg; lia).
      nia. }
    assert (Hqlt : q < 2 ^ (d1 + - e' - (d2 - 1))).
    { assert (Hsplit : 2 ^ (d1 + - e') = 2 ^ (d1 + - e' - (d2 - 1)) * 2 ^ (d2 - 1)).
      { rewrite <- Z.pow_add_r by lia. f_equal. lia. }
      rewrite Hsplit in Hqm.
      assert (0 < 2 ^ (d2 - 1)) by (apply Z.pow_pos_nonneg; lia).
      nia. }
    pose proof (Zdigits2_upper q _ (conj Hq0 Hqlt) Hk). lia. }
  destruct (SFdiv prec emax _ _) as [sz|sz| |sz mz ez] eqn:D; eauto.
  exfalso. exact (Hfin sz eq_refl).
Qed.

End FloatRange.

(* ================================================================== *)
(** * Further properties of the report *)

Section ReportOrder.

Lemma insert_desc_perm (x : string * Z) (l : items_t) :
  Permutation (x :: l) (insert_desc x l).
Proof.
  induction l as [|y l IH]; simpl; [apply Permutation_refl|].
  destruct (snd x <? snd y); [|apply Permutation_refl].
  apply perm_trans with (y :: x :: l); [apply perm_swap|].
  now apply perm_skip.
Qed.

Lemma sorted_desc_perm (l : items_t) : Permutation l (sorted_desc l).
Proof.
  induction l as [|x l IH]; simpl; [apply perm_nil|].
  apply perm_trans with (x :: sorted_desc l); [now apply perm_skip|].
  apply insert_desc_perm.
Qed.

Lemma insert_desc_sorted (x : string * Z) (l : items_t) :
  StronglySorted (fun a b => snd b <= snd a) l ->
  StronglySorted (fun a b => snd b <= snd a) (insert_desc x l).
Proof.
  induction 1 as [|y l Hs IH Hy]; simpl.
  - constructor; constructor.
  - destruct (snd x <? snd y) eqn:E.
    + apply Z.ltb_lt in E. constructor; trivial.
      apply Forall_forall. intros z Hz.
      apply (Permutation_in z (Permutation_sym (insert_desc_perm x l))) in Hz.
      destruct Hz as [<-|Hz]; [lia|].
      rewrite Forall_forall in Hy. now apply Hy.
    + apply Z.ltb_ge in E. constructor; [constructor; trivial|].
      constructor; trivial.
      apply Forall_forall. intros z Hz.
      rewrite Forall_forall in Hy. specialize (Hy z Hz). lia.
Qed.

Lemma sorted_desc_sorted (l : items_t) :
  StronglySorted (fun a b => snd b <= snd a) (sorted_desc l).
Proof.
  induction l as [|x l IH]; simpl; [constructor|].
  now apply insert_desc_sorted.
Qed.

Lemma insert_desc_filter (v : Z) (x : string * Z) (l : items_t) :
  filter (fun kv => snd kv =? v) (insert_desc x l)
  = filter (fun kv => snd kv =? v) (x :: l).
Proof.
  induction l as [|y l IH]; simpl; trivial.
  destruct (snd x <? snd y) eqn:E; trivial.
  apply Z.ltb_lt in E. simpl. rewrite IH. simpl.
  destruct (snd x =? v) eqn:Ex, (snd y =? v) eqn:Ey; trivial.
  apply Z.eqb_eq in Ex, Ey. lia.
Qed.

Lemma sorted_desc_stable (v : Z) (l : items_t) :
  filter (fun kv => snd kv =? v) (sorted_desc l)
  = filter (fun kv => snd kv =? v) l.
Proof.
  induction l as [|x l IH]; simpl; trivial.
  rewrite insert_desc_filter. simpl. now rewrite IH.
Qed.

Lemma for_each_rows_inv {A : Type} (f : A -> result string) (l : list A)
  (init out : list string) :
  for_each (fun results a => row <- f a ;; Ok (results ++ [row])%list) init l = Ok out ->
  exists rows, Forall2 (fun a row => f a = Ok row) l rows /\ out = (init ++ rows)%list.
Proof.
  revert init. induction l as [|a l IH]; intros init H; simpl in H.
  - inversion H. exists []. split; [constructor|now rewrite app_nil_r].
  - destruct (f a) as [row|e] eqn:E; simpl in H; try discriminate.
    destruct (IH _ H) as [rows [Hrows ->]].
    exists (row :: rows). split; [now constructor|].
    now rewrite <- app_assoc.
Qed.

Lemma for_each_rows_total {A : Type} (f : A -> result string) (l : list A)
  (init : list string) :
  (forall a, In a l -> exists row, f a = Ok row) ->
  exists out,
    for_each (fun results a => row <- f a ;; Ok (results ++ [row])%list) init l = Ok out.
Proof.
  intro H. apply for_each_total_in. intros s a Ha.
  destruct (H a Ha) as [row Hrow]. rewrite Hrow. simpl. eauto.
Qed.

Lemma truediv_raise (a b : Z) (e : exn) :
  truediv a b = Raise e ->
  (exists m, e = ZeroDivisionError m) \/ (exists m, e = OverflowError m).
Proof.
  unfold truediv. destruct (b =? 0); [inversion 1; eauto|].
  destruct (SFdiv prec emax _ _); try discriminate. inversion 1. eauto.
Qed.

Lemma format_row_key_error (total : Z) (fc : PyDict) (ext k : string) (lines : Z) :
  format_row total fc (ext, lines) = Raise (KeyError k) ->
  k = ext /\ kind fc = PlainDict /\ find_item ext (items fc) = None.
Proof.
  unfold format_row, getitem.
  destruct (find_item ext (items fc)) as [files|] eqn:F; [|destruct (kind fc)]; simpl.
  - unfold percentage_of, avg_lines_of.
    destruct (total >? 0).
    + destruct (truediv lines total) eqn:T; simpl.
      * destruct (files >? 0); [|discriminate].
        destruct (truediv lines files) eqn:T2; simpl; [discriminate|].
        inversion 1. subst e.
        apply truediv_raise in T2. destruct T2 as [[m Hm]|[m Hm]]; discriminate.
      * inversion 1. subst e.
        apply truediv_raise in T. destruct T as [[m Hm]|[m Hm]]; discriminate.
    + simpl. destruct (files >? 0); [|discriminate].
      destruct (truediv lines files) eqn:T2; simpl; [discriminate|].
      inversion 1. subst e.
      apply truediv_raise in T2. destruct T2 as [[m Hm]|[m Hm]]; discriminate.
  - inversion 1. auto.
  - unfold percentage_of, avg_lines_of. simpl.
    destruct (total >? 0).
    + destruct (truediv lines total) eqn:T; simpl; [discriminate|].
      inversion 1. subst e.
      apply truediv_raise in T. destruct T as [[m Hm]|[m Hm]]; discriminate.
    + discriminate.
Qed.

Lemma format_row_ok_key (total : Z) (fc : PyDict) (ext row : string) (lines : Z) :
  format_row total fc (ext, lines) = Ok row ->
  kind fc = DefaultDictInt \/ find_item ext (items fc) <> None.
Proof.
  unfold format_row, getitem.
  destruct (find_item ext (items fc)); [right; discriminate|].
  destruct (kind fc); [discriminate|now left].
Qed.



Lemma Forall2_In_l {A B : Type} (R : A -> B -> Prop) (l : list A) (l' : list B)
  (a : A) :
  Forall2 R l l' -> In a l -> exists b, R a b.
Proof.
  induction 1 as [|x y l l' Hxy _ IH]; simpl; [tauto|].
  intros [<-|Hin]; eauto.
Qed.

Lemma report_layout_aux (stats file_counts : PyDict) (s : string) :
  format_results stats file_counts = Ok s ->
  exists rows,
    Forall2 (fun item row =>
               format_row (sum_values (items stats)) file_counts item = Ok row)
            (sorted_desc (items stats)) rows.
Proof.
  unfold format_results. intro H.
  destruct (for_each _ _ _) as [out|e] eqn:E; simpl in H; try discriminate.
  apply for_each_rows_inv in E. destruct E as [rows [Hrows _]]. eauto.
Qed.

End ReportOrder.

(** X7.  The report lists the items of [stats] by descending line
    count: the order of the rows is a permutation of the items, sorted,
    and items with equal line counts keep the order they have in the
    dictionary. *)
Theorem rows_sorted_by_descending_lines (d : items_t) :
  Permutation d (sorted_desc d)
  /\ StronglySorted (fun a b => snd b <= snd a) (sorted_desc d)
  /\ (forall v, filter (fun kv => snd kv =? v) (sorted_desc d)
                = filter (fun kv => snd kv =? v) d).
Proof.
  split; [apply sorted_desc_perm|]. split; [apply sorted_desc_sorted|].
  intro v. apply sorted_desc_stable.
Qed.

(** X8.  A report that is produced is the six header lines, showing
    the sums of the two dictionaries, followed by exactly one row per
    item of [stats] in sorted order, joined by newlines. *)
Theorem report_layout (stats file_counts : PyDict) (s : string) :
  format_results stats file_counts = Ok s ->
  exists rows,
    s = String.concat nl
          (header (sum_values (items stats)) (sum_values (items file_counts)) ++ rows)
    /\ Forall2 (fun item row =>
                  format_row (sum_values (items stats)) file_counts item = Ok row)
               (sorted_desc (items stats)) rows
    /\ List.length rows = List.length (items stats).
Proof.
  unfold format_results. intro H.
  destruct (for_each _ _ _) as [out|e] eqn:E; simpl in H; try discriminate.
  apply for_each_rows_inv in E. destruct E as [rows [Hrows ->]].
  inversion H. exists rows. split; [reflexivity|]. split; [exact Hrows|].
  rewrite <- (Forall2_length Hrows).
  symmetry. apply Permutation_length, sorted_desc_perm.
Qed.

(** X9.  [format_results] raises [KeyError] only when [file_counts] is
    a plain dictionary that lacks a key of [stats], and then for that
    key; it returns a report only when every key of [stats] can be read
    from [file_counts]. *)
Theorem format_results_missing_key (stats file_counts : PyDict) :
  (forall k, format_results stats file_counts = Raise (KeyError k) ->
             kind file_counts = PlainDict
             /\ In k (map fst (items stats))
             /\ find_item k (items file_counts) = None)
  /\ (forall s, format_results stats file_counts = Ok s ->
                forall k, In k (map fst (items stats)) ->
                          kind file_counts = DefaultDictInt
                          \/ find_item k (items file_counts) <> None).
Proof.
  split.
  - intros k H. unfold format_results in H.
    destruct (for_each _ _ _) as [out|e] eqn:E; simpl in H; try discriminate.
    inversion H. subst e.
    apply for_each_raise in E. destruct E as [res [[ext lines] [Hin Hrow]]].
    destruct (format_row _ file_counts (ext, lines)) eqn:R; simpl in Hrow;
      try discriminate.
    inversion Hrow. subst e.
    apply format_row_key_error in R. destruct R as [-> [Hk Hf]].
    split; trivial. split; trivial.
    apply (Permutation_in _ (Permutation_sym (sorted_desc_perm (items stats)))) in Hin.
    now apply (in_map fst) in Hin.
  - intros s H k Hk.
    destruct (report_layout_aux stats file_counts s H) as [rows Hrows].
    apply in_map_iff in Hk. destruct Hk as [[ext lines] [<- Hin]]. simpl.
    apply (Permutation_in _ (sorted_desc_perm (items stats))) in Hin.
    destruct (Forall2_In_l _ _ _ _ Hrows Hin) as [row Hrow]. simpl in Hrow.
    eapply format_row_ok_key; eauto.
Qed.

Section ReportReturns.

Lemma getitem_readable (fc : PyDict) (k : string) :
  kind fc = DefaultDictInt \/ find_item k (items fc) <> None ->
  exists files, getitem fc k = Ok files.
Proof.
  unfold getitem. intros [H|H].
  - rewrite H. destruct (find_item k (items fc)); eauto.
  - destruct (find_item k (items fc)); [eauto|congruence].
Qed.

(** A row is produced when the key can be read and the line count is
    below 2^1000 in magnitude. *)
Lemma format_row_returns (total : Z) (fc : PyDict) (ext : string) (lines : Z) :
  kind fc = DefaultDictInt \/ find_item ext (items fc) <> None ->
  Z.abs lines <= 2 ^ 1000 ->
  exists row, format_row total fc (ext, lines) = Ok row.
Proof.
  intros Hk Hl. unfold format_row.
  destruct (getitem_readable fc ext Hk) as [files Hf]. rewrite Hf. simpl.
  assert (Hp : exists pct, percentage_of lines total = Ok pct).
  { unfold percentage_of. destruct (total >? 0) eqn:E; [|eauto].
    apply Z.gtb_lt in E.
    destruct (truediv_returns lines total) as [q Hq]; [lia|nia|].
    rewrite Hq. simpl. eauto. }
  assert (Ha : exists avg, avg_lines_of lines files = Ok avg).
  { unfold avg_lines_of. destruct (files >? 0) eqn:E; [|eauto].
    apply Z.gtb_lt in E.
    destruct (truediv_returns lines files) as [q Hq]; [lia|nia|].
    rewrite Hq. simpl. eauto. }
  destruct Hp as [pct ->]. destruct Ha as [avg ->]. simpl. eauto.
Qed.


(** The loop of [format_results] runs to its end when every key can
    be read and no line count reaches 2^1000 in magnitude: the two
    divisions are guarded against zero and cannot overflow. *)
Lemma format_results_total (stats file_counts : PyDict) :
  Forall (fun kv => Z.abs (snd kv) <= 2 ^ 1000) (items stats) ->
  (forall k, In k (map fst (items stats)) ->
             kind file_counts = DefaultDictInt
             \/ find_item k (items file_counts) <> None) ->
  exists s, format_results stats file_counts = Ok s.
Proof.
  intros Hsize Hkeys. unfold format_results.
  destruct (for_each_rows_total
              (format_row (sum_values (items stats)) file_counts)
              (sorted_desc (items stats))
              (header (sum_values (items stats)) (sum_values (items file_counts))))
    as [rows Hrows].
  - intros [ext lines] Hin.
    apply (Permutation_in _ (Permutation_sym (sorted_desc_perm (items stats)))) in Hin.
    apply format_row_returns.
    + apply Hkeys. now apply (in_map fst) in Hin.
    + rewrite Forall_forall in Hsize. exact (Hsize _ Hin).
  - rewrite Hrows. simpl. eauto.
Qed.



End ReportReturns.

(** X10.  [format_results] returns a report whenever every key of
    [stats] can be read from [file_counts] (it is a [defaultdict], or
    it has the key), no line count reaches 2^1000 in magnitude, and
    the two totals and the file counts are integers that CPython turns
    into text (at most 4300 digits): the two divisions are guarded
    against zero and cannot overflow, and every number can be
    formatted. *)
Theorem format_results_returns (stats file_counts : PyDict) :
  Forall (fun kv => Z.abs (snd kv) <= 2 ^ 1000) (items stats) ->
  (forall k, In k (map fst (items stats)) ->
             kind file_counts = DefaultDictInt
             \/ find_item k (items file_counts) <> None) ->
  within_str_digits (sum_values (items stats)) ->
  within_str_digits (sum_values (items file_counts)) ->
  Forall (fun kv => within_str_digits (snd kv)) (items file_counts) ->
  exists s, format_results stats file_counts = Ok s.
Proof.
  intros Hsize Hkeys _ _ _. now apply format_results_total.
Qed.


(* ================================================================== *)
(** * The range of the float operations of the logger *)

Section FloatMagnitude.












End FloatMagnitude.

(* ================================================================== *)
(** * The logger inside the scan *)

Section Logger.







End Logger.



(* ================================================================== *)
(** * The order of the extension list *)

Section ExtensionOrder.

Lemma zsum_perm (l l' : list Z) : Permutation l l' -> zsum l = zsum l'.
Proof. induction 1; simpl; lia. Qed.

Lemma filter_perm {A : Type} (f : A -> bool) (l l' : list A) :
  Permutation l l' -> Permutation (filter f l) (filter f l').
Proof.
  induction 1 as [|x l l' _ IH|x y l|l l' l'' _ IH1 _ IH2]; simpl.
  - constructor.
  - destruct (f x); [now constructor|exact IH].
  - destruct (f x), (f y); try apply Permutation_refl. apply perm_swap.
  - eapply perm_trans; eauto.
Qed.

Lemma visits_perm (root : Path) (fs : FileSystem) (xd xf exts exts' : list string) :
  Permutation exts exts' ->
  Permutation (visits root fs xd xf exts) (visits root fs xd xf exts').
Proof. intro H. unfold visits. now apply Permutation_flat_map. Qed.

Lemma candidates_perm_In (root : Path) (fs : FileSystem) (exts exts' : list string)
  (p : Path) :
  Permutation exts exts' ->
  In p (candidates root fs exts') -> In p (candidates root fs exts).
Proof.
  intros H Hin. unfold candidates in *.
  apply in_flat_map in Hin. destruct Hin as [ext [He Hp]].
  apply in_flat_map. exists ext. split; trivial.
  eapply Permutation_in; [apply Permutation_sym; exact H|exact He].
Qed.

End ExtensionOrder.

(** X14.  Reordering the extension list changes no count: the scan
    of a permuted list returns as well, every key holds the same line
    count and the same file count, and so the totals are the same.
    (Only the order of the keys, and with it the order of rows with
    equal line counts, can differ.) *)
Theorem extension_order_is_irrelevant (out : Console) (root : Path) (fs : FileSystem)
  (exclude_dirs exclude_files : option (list string)) (exts exts' : list string)
  (stats file_counts : PyDict) :
  Permutation exts exts' ->
  analyze_repo out root fs exclude_dirs exclude_files (Some exts)
  = Ok (stats, file_counts) ->
  exists stats' file_counts',
    analyze_repo out root fs exclude_dirs exclude_files (Some exts')
    = Ok (stats', file_counts')
    /\ (forall ext,
          count_of (items stats') ext = count_of (items stats) ext
          /\ count_of (items file_counts') ext = count_of (items file_counts) ext)
    /\ sum_values (items stats') = sum_values (items stats)
    /\ sum_values (items file_counts') = sum_values (items file_counts).
Proof.
  intros Hperm H.
  set (xd := or_default exclude_dirs default_exclude_dirs).
  set (xf := or_default exclude_files default_exclude_files).
  assert (Hret : exists r,
    analyze_repo out root fs exclude_dirs exclude_files (Some exts') = Ok r).
  { destruct (analyze_repo_valid _ _ _ _ _ _ _ H) as [V _]. cbn [or_default] in V.
    assert (V' : forallb (fun ext => valid_glob (pattern_of ext)) exts' = true).
    { apply forallb_forall. intros ext He. rewrite forallb_forall in V. apply V.
      eapply Permutation_in; [apply Permutation_sym; exact Hperm|exact He]. }
    rewrite analyze_repo_unfold in *. cbv zeta in *. cbn [or_default] in *.
    fold xd xf in H |- *. rewrite V in H. rewrite V'.
    destruct (for_each _ _ exts) as [c|e] eqn:E; simpl in H; try discriminate.
    destruct (scan_total out root fs xd xf exts')
      with (c := (@nil (string * Z), @nil (string * Z))) as [c' Hc'].
    - intros p Hp.
      pose proof (candidates_perm_In root fs exts exts' p Hperm Hp) as Hp'.
      destruct (scan_decides _ _ _ _ _ _ _ _ E _ Hp') as [b Hb].
      exists b. split; trivial. intros ->. eapply scan_warned; eauto.
    - rewrite Hc'. simpl. eauto. }
  destruct Hret as [[stats' fc'] H'].
  exists stats', fc'. split; trivial.
  destruct (analyze_repo_tally _ _ _ _ _ _ _ _ H) as [Hs Hf].
  destruct (analyze_repo_tally _ _ _ _ _ _ _ _ H') as [Hs' Hf'].
  cbn [or_default] in *. fold xd xf in Hs, Hf, Hs', Hf'.
  subst stats file_counts stats' fc'. cbn [items].
  pose proof (visits_perm root fs xd xf exts exts' Hperm) as Hv.
  assert (Hl : Permutation (line_adds out root fs (visits root fs xd xf exts'))
                           (line_adds out root fs (visits root fs xd xf exts))).
  { unfold line_adds. apply Permutation_map, Permutation_sym, Hv. }
  assert (Hfa : Permutation (file_adds (visits root fs xd xf exts'))
                            (file_adds (visits root fs xd xf exts))).
  { unfold file_adds. apply Permutation_map, Permutation_sym, Hv. }
  split; [|split].
  - intro ext. rewrite !count_of_tally. split; apply zsum_perm, Permutation_map.
    + now apply filter_perm.
    + now apply filter_perm.
  - rewrite !sum_values_tally. now apply zsum_perm, Permutation_map.
  - rewrite !sum_values_tally. now apply zsum_perm, Permutation_map.
Qed.


(* ================================================================== *)
(** * The two ends of the progress bar *)

Section BarEnds.

Lemma div_eucl_pair (a b : Z) : Z.div_eucl a b = (a / b, a mod b).
Proof. unfold Z.div, Z.modulo. now destruct (Z.div_eucl a b). Qed.

(** [t / t] is exactly [1.0]. *)
Lemma truediv_self (t : Z) :
  0 < t -> truediv t t = Ok (S754_finite false 4503599627370496 (-52)).
Proof.
  intro Ht. unfold truediv.
  destruct (t =? 0) eqn:E; [apply Z.eqb_eq in E; lia|].
  destruct t as [|p|p]; try lia. cbn [exact_int].
  unfold SFdiv, SFdiv_core_binary.
  replace (Zdigits2 (Z.pos p) + 0 - (Zdigits2 (Z.pos p) + 0)) with 0 by lia.
  change (Z.min (fexp prec emax 0) (0 - 0)) with (-53).
  change (0 - 0 - -53) with 53.
  cbv iota.
  rewrite Z.shiftl_mul_pow2 by lia.
  rewrite div_eucl_pair, Z.mul_comm, Z.div_mul, Z.mod_mul by lia.
  assert (Hloc : new_location (Z.pos p) 0 = loc_Exact).
  { unfold new_location, new_location_even, new_location_odd.
    destruct (Z.even (Z.pos p)); reflexivity. }
  rewrite Hloc. vm_compute. reflexivity.
Qed.

(** [0 / t] is [0.0]. *)
Lemma truediv_zero (t : Z) : 0 < t -> truediv 0 t = Ok (S754_zero false).
Proof.
  intro Ht. unfold truediv.
  destruct (t =? 0) eqn:E; [apply Z.eqb_eq in E; lia|].
  destruct t as [|p|p]; try lia. reflexivity.
Qed.

End BarEnds.

(** X16.  The two ends of the bar, for every positive total that
    CPython turns into text (at most 4300 digits): before the first
    file the logger draws an empty bar of 30 columns and 0.0%; when it
    has counted as many files as the total, a full bar and 100.0%. *)
Theorem progress_bar_ends (t : Z) (started last interval : spec_float) :
  0 < t ->
  within_str_digits t ->
  _print_progress (mkLogger (Some t) 0 started last interval)
  = Ok (cr ++ "[" ++ repeat_str " " 30 ++ "] 0.0% (0/" ++ str_int t ++ ")")
  /\ _print_progress (mkLogger (Some t) t started last interval)
     = Ok (cr ++ "[" ++ repeat_str "=" 30 ++ "] 100.0% ("
              ++ str_int t ++ "/" ++ str_int t ++ ")").
Proof.
  intros Ht _. unfold _print_progress. cbn [total current].
  assert (E : (t =? 0) = false) by (apply Z.eqb_neq; lia).
  rewrite E, truediv_zero, truediv_self by trivial.
  split; reflexivity.
Qed.

(* ================================================================== *)
(** * Which files a key counts *)

Section CountedFiles.

Lemma visits_In (root : Path) (fs : FileSystem) (xd xf exts : list string)
  (ext : string) (p : Path) :
  In (ext, p) (visits root fs xd xf exts)
  <-> In ext exts /\ In p (yielded root fs (pattern_of ext))
      /\ skipped xd xf p = false.
Proof.
  unfold visits, kept. rewrite in_flat_map. split.
  - intros [e [He Hin]]. apply in_map_iff in Hin. destruct Hin as [q [Hq Hin]].
    inversion Hq. subst e q. apply filter_In in Hin. destruct Hin as [Hg Hs].
    apply negb_true_iff in Hs. auto.
  - intros [He [Hg Hs]]. exists ext. split; trivial.
    apply in_map. apply filter_In. split; trivial. now rewrite Hs.
Qed.

Lemma visited_for_In (root : Path) (fs : FileSystem) (xd xf exts : list string)
  (ext : string) (p : Path) :
  In p (visited_for root fs xd xf exts ext) <-> In (ext, p) (visits root fs xd xf exts).
Proof.
  unfold visited_for. rewrite in_map_iff. split.
  - intros [[e q] [Hq Hin]]. simpl in Hq. subst q.
    apply filter_In in Hin. destruct Hin as [Hin He]. simpl in He.
    apply String.eqb_eq in He. now subst e.
  - intro Hin. exists (ext, p). split; trivial.
    apply filter_In. split; trivial. simpl. apply String.eqb_refl.
Qed.

Lemma analyze_repo_decides (out : Console) (root : Path) (fs : FileSystem)
  (exclude_dirs exclude_files include_extensions : option (list string))
  (r : PyDict * PyDict) (p : Path) :
  analyze_repo out root fs exclude_dirs exclude_files include_extensions = Ok r ->
  In p (candidates root fs (or_default include_extensions default_include_extensions)) ->
  exists b, is_excluded (or_default exclude_dirs default_exclude_dirs)
                        (or_default exclude_files default_exclude_files) p = Ok b.
Proof.
  rewrite analyze_repo_unfold. cbv zeta. intros H Hp.
  destruct (forallb _ _); [|discriminate].
  destruct (for_each _ _ _) as [c|e] eqn:E; simpl in H; try discriminate.
  eapply scan_decides; eauto.
Qed.

End CountedFiles.

(** X17.  For an extension entry without wildcard characters or
    slash, the file count of its key is the number of paths counted for
    it, and these are exactly the entries of the tree, at any depth,
    whose name ends with the entry (no dot is asked for: the default
    entry [dart] also counts a file named [mustdart]) and which the two
    exclusion tests let through. *)
Theorem counted_iff_name_ends_with_extension (out : Console) (root : Path) (fs : FileSystem)
  (exclude_dirs exclude_files include_extensions : option (list string))
  (stats file_counts : PyDict) (ext : string) (p : Path) :
  plain_extension ext = true ->
  analyze_repo out root fs exclude_dirs exclude_files include_extensions
  = Ok (stats, file_counts) ->
  let xd := or_default exclude_dirs default_exclude_dirs in
  let xf := or_default exclude_files default_exclude_files in
  let exts := or_default include_extensions default_include_extensions in
  count_of (items file_counts) ext
  = Z.of_nat (List.length (visited_for root fs xd xf exts ext))
  /\ (In p (visited_for root fs xd xf exts ext)
      <-> In ext exts
          /\ is_excluded xd xf p = Ok false
          /\ exists rel, In rel (map fst fs) /\ rel <> [] /\ p = joinpath root rel
                         /\ exists pre, last rel "" = pre ++ ext).
Proof.
  intros Hplain H xd xf exts.
  split.
  { destruct (analyze_repo_tally _ _ _ _ _ _ _ _ H) as [_ Hf].
    fold xd xf exts in Hf. subst file_counts. simpl items. unfold visited_for.
    rewrite count_of_tally. unfold file_adds.
    rewrite (filter_keyed (fun _ => 1)), zsum_ones. now rewrite length_map. }
  rewrite visited_for_In, visits_In, (glob_plain_extension root fs ext p Hplain).
  split.
  - intros [He [Hg Hs]]. split; trivial. split; trivial.
    assert (Hc : In p (candidates root fs exts)).
    { unfold candidates. apply in_flat_map. exists ext. split; trivial.
      now apply glob_plain_extension. }
    destruct (analyze_repo_decides _ _ _ _ _ _ _ _ H Hc) as [b Hb].
    fold xd xf in Hb. unfold skipped in Hs. rewrite Hb in Hs. now subst b.
  - intros [He [Hx Hg]]. split; trivial. split; trivial.
    unfold skipped. now rewrite Hx.
Qed.

(* ================================================================== *)
(** * The further properties at sample inputs *)

Lemma scan_dictionaries_agree_witness :
  analyze_repo utf8_console proj fs_web None None None
  = Ok (mkDict DefaultDictInt [(".py", 1); (".js", 2)],
        mkDict DefaultDictInt [(".py", 1); (".js", 1)])
  /\ map fst [(".py", 1); (".js", 2)] = map fst [(".py", 1); (".js", 1)]
  /\ NoDup (map fst [(".py", 1); (".js", 2)])
  /\ Forall (fun kv : string * Z => 1 <= snd kv) [(".py", 1); (".js", 1)]
  /\ Forall (fun kv : string * Z => 0 <= snd kv) [(".py", 1); (".js", 2)].
Proof.
  pose proof (scan_dictionaries_agree utf8_console proj fs_web None None None _ _
                eq_refl) as [H1 [H2 [H3 [H4 _]]]].
  split; [reflexivity|]. split; [exact H1|]. split; [exact H2|].
  split; [exact H3|exact H4].
Defined.

(** Of the eleven default extensions only two count a file here. *)
Lemma scan_keys_witness :
  analyze_repo utf8_console proj fs_web None None None
  = Ok (mkDict DefaultDictInt [(".py", 1); (".js", 2)],
        mkDict DefaultDictInt [(".py", 1); (".js", 1)])
  /\ (In ".css" (map fst [(".py", 1); (".js", 2)]) <->
      In ".css" default_include_extensions
      /\ kept proj fs_web default_exclude_dirs default_exclude_files ".css" <> []).
Proof.
  pose proof (scan_keys_are_counted_extensions utf8_console proj fs_web None None None
                _ _ eq_refl) as H.
  cbv zeta in H. destruct H as [_ H].
  split; [reflexivity|exact (H ".css")].
Defined.





Lemma report_layout_witness :
  format_results (mkDict DefaultDictInt [(".py", 3)]) (mkDict DefaultDictInt [(".py", 2)])
  = Ok scenario_report
  /\ exists rows,
       scenario_report = String.concat nl (header 3 2 ++ rows)
       /\ Forall2 (fun item row =>
                     format_row 3 (mkDict DefaultDictInt [(".py", 2)]) item = Ok row)
                  [(".py", 3)] rows
       /\ List.length rows = 1%nat.
Proof.
  split; [reflexivity|].
  exact (report_layout (mkDict DefaultDictInt [(".py", 3)])
           (mkDict DefaultDictInt [(".py", 2)]) scenario_report eq_refl).
Defined.

(** Plain dictionaries, the second without the key of the first. *)
Lemma format_results_missing_key_witness :
  format_results (mkDict PlainDict [(".py", 3)]) (mkDict PlainDict [(".js", 1)])
  = Raise (KeyError ".py")
  /\ In ".py" (map fst [(".py", 3)])
  /\ find_item ".py" [(".js", 1)] = None.
Proof.
  destruct (proj1 (format_results_missing_key (mkDict PlainDict [(".py", 3)])
                     (mkDict PlainDict [(".js", 1)])) ".py" eq_refl)
    as [_ [H1 H2]].
  split; [reflexivity|]. split; [exact H1|exact H2].
Defined.

Lemma format_results_returns_witness :
  Forall (fun kv : string * Z => Z.abs (snd kv) <= 2 ^ 1000) [(".py", 3); (".js", -1)]
  /\ within_str_digits (sum_values [(".py", 3); (".js", -1)])
  /\ within_str_digits (sum_values [(".py", 2)])
  /\ Forall (fun kv : string * Z => within_str_digits (snd kv)) [(".py", 2)]
  /\ exists s,
       format_results (mkDict PlainDict [(".py", 3); (".js", -1)])
                      (mkDict DefaultDictInt [(".py", 2)]) = Ok s.
Proof.
  assert (H : Forall (fun kv : string * Z => Z.abs (snd kv) <= 2 ^ 1000)
                     [(".py", 3); (".js", -1)]).
  { repeat constructor; vm_compute; discriminate. }
  assert (H1 : within_str_digits (sum_values [(".py", 3); (".js", -1)]))
    by (vm_compute; reflexivity).
  assert (H2 : within_str_digits (sum_values [(".py", 2)]))
    by (vm_compute; reflexivity).
  assert (H3 : Forall (fun kv : string * Z => within_str_digits (snd kv)) [(".py", 2)]).
  { constructor; [vm_compute; reflexivity|constructor]. }
  split; [exact H|]. split; [exact H1|]. split; [exact H2|]. split; [exact H3|].
  apply (format_results_returns (mkDict PlainDict [(".py", 3); (".js", -1)])
           (mkDict DefaultDictInt [(".py", 2)]) H); trivial.
  intros k _. left. reflexivity.
Defined.



Lemma extension_order_witness :
  Permutation [".py"; ".js"] [".js"; ".py"]
  /\ analyze_repo utf8_console proj fs_web None None (Some [".py"; ".js"])
     = Ok (mkDict DefaultDictInt [(".py", 1); (".js", 2)],
           mkDict DefaultDictInt [(".py", 1); (".js", 1)])
  /\ exists stats' file_counts',
       analyze_repo utf8_console proj fs_web None None (Some [".js"; ".py"])
       = Ok (stats', file_counts')
       /\ (forall ext,
             count_of (items stats') ext = count_of [(".py", 1); (".js", 2)] ext
             /\ count_of (items file_counts') ext
                = count_of [(".py", 1); (".js", 1)] ext)
       /\ sum_values (items stats') = sum_values [(".py", 1); (".js", 2)]
       /\ sum_values (items file_counts') = sum_values [(".py", 1); (".js", 1)].
Proof.
  assert (Hp : Permutation [".py"; ".js"] [".js"; ".py"]) by apply perm_swap.
  split; [exact Hp|]. split; [reflexivity|].
  exact (extension_order_is_irrelevant utf8_console proj fs_web None None _ _ _ _ Hp
           eq_refl).
Defined.

Lemma progress_bar_ends_witness :
  0 < 7
  /\ within_str_digits 7
  /\ _print_progress (mkLogger (Some 7) 7 (S754_zero false) (S754_zero false)
                               tenth_of_second)
     = Ok (cr ++ "[==============================] 100.0% (7/7)").
Proof.
  assert (H : within_str_digits 7) by (vm_compute; reflexivity).
  split; [lia|]. split; [exact H|].
  exact (proj2 (progress_bar_ends 7 (S754_zero false) (S754_zero false)
                  tenth_of_second ltac:(lia) H)).
Defined.

(** The default entry [dart] counts [mustdart]; the generated file is
    excluded by [*.g.dart]. *)
Lemma counted_by_suffix_witness :
  plain_extension "dart" = true
  /\ analyze_repo utf8_console proj fs_dart None None None
     = Ok (mkDict DefaultDictInt [("dart", 3)], mkDict DefaultDictInt [("dart", 2)])
  /\ In (joinpath proj ["mustdart"])
        (visited_for proj fs_dart default_exclude_dirs default_exclude_files
                     default_include_extensions "dart").
Proof.
  split; [reflexivity|]. split; [reflexivity|].
  apply (proj2 (counted_iff_name_ends_with_extension utf8_console proj fs_dart
                  None None None _ _ "dart" (joinpath proj ["mustdart"])
                  eq_refl eq_refl)).
  split; [simpl; auto|]. split; [reflexivity|].
  exists ["mustdart"]. split; [simpl; auto|]. split; [discriminate|].
  split; [reflexivity|]. exists "must". reflexivity.
Defined.
